(** * SystemMonitor (src/tools/system_monitor.py): a shallow embedding

    Numbers the Python code holds as floats are modelled as exact
    rationals [Q]; byte counts are integers [Z].  [format_bytes] has a
    second, double-precision model [format_bytes_py] that rounds every
    division as Python does; the two agree below 2^53.  Dictionaries returned by
    the probes are association lists from string keys to Python values,
    and every operation that can raise is written in a small exception
    monad [pyres]. *)

From Stdlib Require Import ZArith QArith List String Ascii Bool Lia.
From Stdlib Require Import QArith.Qabs QArith.Qpower QArith.Qround.
From Stdlib Require Import Sorting.Sorted Sorting.Permutation.
Import ListNotations.
Open Scope string_scope.

(** ** Exceptions *)

Inductive exn : Type :=
| NoSuchProcess
| AccessDenied
| ZombieProcess
| KeyError (k : string)
| ZeroDivisionError
| TypeError
| PermissionError
| OverflowError
| OtherError.

Inductive pyres (A : Type) : Type :=
| Ret (a : A)
| Raise (e : exn).
Arguments Ret {A} a.
Arguments Raise {A} e.

Definition pybind {A B} (m : pyres A) (k : A -> pyres B) : pyres B :=
  match m with
  | Ret a => k a
  | Raise e => Raise e
  end.

Notation "x <- m ;; k" := (pybind m (fun x => k))
  (at level 61, m at next level, right associativity).

(** ** Rendering numbers *)

Definition Qltb (a b : Q) : bool :=
  Z.ltb (Qnum a * Zpos (Qden b)) (Qnum b * Zpos (Qden a)).

Fixpoint dec_aux (fuel : nat) (n : Z) (acc : string) : string :=
  match fuel with
  | O => acc
  | S f =>
      let acc' := String (ascii_of_nat (48 + Z.to_nat (n mod 10)%Z)) acc in
      if Z.eqb (n / 10)%Z 0 then acc' else dec_aux f (n / 10)%Z acc'
  end.

(** Decimal digits of a non-negative integer. *)
Definition dec_of_nonneg (n : Z) : string :=
  dec_aux (S (Z.to_nat (Z.log2 n))) n "".

(** Round half to even of an exact rational to an integer: the rounding
    Python's [round] and ["%.1f"] apply to the exact value of a float. *)
Definition round_half_even (q : Q) : Z :=
  let n := Qnum q in
  let d := Zpos (Qden q) in
  let f := (n / d)%Z in
  let r := (n mod d)%Z in
  if Z.ltb (2 * r) d then f
  else if Z.ltb d (2 * r) then (f + 1)%Z
  else if Z.even f then f else (f + 1)%Z.

(** [round(x, 1)] *)
Definition round1 (q : Q) : Q := Qmake (round_half_even (q * 10)) 10.

Definition fmt1_nonneg (q : Q) : string :=
  let t := round_half_even (q * 10) in
  dec_of_nonneg (t / 10)%Z ++ "." ++ dec_of_nonneg (t mod 10)%Z.

(** [f"{x:.1f}"] *)
Definition fmt1 (q : Q) : string :=
  if Z.ltb (Qnum q) 0 then "-" ++ fmt1_nonneg (- q) else fmt1_nonneg q.

(** ** [SystemMonitor.format_bytes] *)

Definition byte_units : list string := ["B"; "KB"; "MB"; "GB"; "TB"].

(** The [for unit in [...]] loop: the value left and the unit it stops at. *)
Fixpoint format_scan (units : list string) (bytes_value : Q) : Q * string :=
  match units with
  | [] => (bytes_value, "PB")
  | unit :: us =>
      if Qltb bytes_value 1024 then (bytes_value, unit)
      else format_scan us (bytes_value / 1024)
  end.

(** [format_bytes] with exact division (see [format_bytes_py] for the
    double-precision one). *)
Definition format_bytes (bytes_value : Q) : string :=
  let '(v, unit) := format_scan byte_units bytes_value in
  fmt1 v ++ " " ++ unit.

(** The unit label [format_bytes] ends with. *)
Definition format_unit (bytes_value : Q) : string :=
  snd (format_scan byte_units bytes_value).

Definition unit_rank (u : string) : nat :=
  if String.eqb u "B" then 0
  else if String.eqb u "KB" then 1
  else if String.eqb u "MB" then 2
  else if String.eqb u "GB" then 3
  else if String.eqb u "TB" then 4
  else 5.

(** *** The double-precision arithmetic of [format_bytes]

    [bytes_value] starts as a Python int.  [bytes_value /= 1024] on an int
    is int true division: correctly rounded to a double, and raising
    OverflowError when the result does not fit a float.  On a float it is
    float division, again correctly rounded.  [f"{x:.1f}"] converts an int
    with [float()] (correctly rounded, OverflowError when it does not fit)
    and prints the exact binary value of a float. *)

Definition pow2 (z : Z) : Q := Qpower (2 # 1) z.

(** For [q > 0]: the exponent [e] with [2^e <= q < 2^(e+1)]. *)
Definition binade (q : Q) : Z :=
  let d := (Z.log2 (Qnum q) - Z.log2 (Zpos (Qden q)))%Z in
  if Qltb q (pow2 d) then (d - 1)%Z else d.

(** Rounding to the nearest double, ties to even: 53 significant bits,
    spacing [2^-1074] below [2^-1022]; the exponent is not bounded above. *)
Definition round_double (q : Q) : Q :=
  if Z.eqb (Qnum q) 0 then 0 else
  let a := Qabs q in
  let ulp := pow2 (Z.max (binade a) (-1022) - 52) in
  let r := (inject_Z (round_half_even (a / ulp)) * ulp)%Q in
  if Z.ltb (Qnum q) 0 then (- r)%Q else r.

(** A correctly rounded int operation whose result must fit a float: a
    result rounded to [2^1024] or beyond raises OverflowError. *)
Definition to_float (q : Q) : pyres Q :=
  let r := round_double q in
  if Qltb (Qabs r) (pow2 1024) then Ret r else Raise OverflowError.

(** A Python number: an int, or a float (a double, held exactly). *)
Inductive pynum : Type :=
| PyInt (n : Z)
| PyFloat (x : Q).

Definition pynum_value (v : pynum) : Q :=
  match v with PyInt n => inject_Z n | PyFloat x => x end.

(** [bytes_value /= 1024]; a float quotient by 1024 is smaller than the
    finite double it comes from, so float division never overflows here. *)
Definition py_div_1024 (v : pynum) : pyres pynum :=
  match v with
  | PyInt n => x <- to_float (inject_Z n / 1024) ;; Ret (PyFloat x)
  | PyFloat x => Ret (PyFloat (round_double (x / 1024)))
  end.

(** [f"{bytes_value:.1f}"] *)
Definition py_fmt1 (v : pynum) : pyres string :=
  match v with
  | PyInt n => x <- to_float (inject_Z n) ;; Ret (fmt1 x)
  | PyFloat x => Ret (fmt1 x)
  end.

(** The [for unit in [...]] loop with Python's arithmetic. *)
Fixpoint format_scan_py (units : list string) (bytes_value : pynum) : pyres string :=
  match units with
  | [] => s <- py_fmt1 bytes_value ;; Ret (s ++ " PB")
  | unit :: us =>
      if Qltb (pynum_value bytes_value) 1024
      then s <- py_fmt1 bytes_value ;; Ret (s ++ " " ++ unit)
      else v <- py_div_1024 bytes_value ;; format_scan_py us v
  end.

(** [format_bytes] on an int, as psutil's byte counts are. *)
Definition format_bytes_py (bytes_value : Z) : pyres string :=
  format_scan_py byte_units (PyInt bytes_value).

(** Reference formatter following section 4.4 of the spec: the unit index
    is the number of thresholds 1024^1 .. 1024^5 the input reaches, the
    value is the input over 1024 to that power. *)
Definition spec_units : list string := ["B"; "KB"; "MB"; "GB"; "TB"; "PB"].

Definition spec_unit_index (n : Z) : nat :=
  List.length (filter (fun j => Z.leb (1024 ^ j) n) [1; 2; 3; 4; 5]%Z).

Definition spec_format_bytes (n : Z) : string :=
  let k := spec_unit_index n in
  fmt1 (Qmake n (Z.to_pos (1024 ^ Z.of_nat k))) ++ " " ++ nth k spec_units "PB".

(** ** Strings *)

Definition lower_char (c : ascii) : ascii :=
  let n := nat_of_ascii c in
  if (65 <=? n)%nat && (n <=? 90)%nat then ascii_of_nat (n + 32) else c.

(** [str.lower()] on ASCII text *)
Fixpoint lower (s : string) : string :=
  match s with
  | EmptyString => EmptyString
  | String c s' => String (lower_char c) (lower s')
  end.

(** [s.endswith(suffix)] *)
Definition endswith (s suffix : string) : bool :=
  let n := String.length s in
  let m := String.length suffix in
  (m <=? n)%nat && String.eqb (substring (n - m) m s) suffix.

(** ** Processes: [SystemMonitor.get_top_processes] *)

(** [proc.info] as prefetched by [psutil.process_iter] in the second pass:
    [cpu_percent] is psutil's busy-time over wall-time percentage since the
    first pass; [rss] is [memory_info.rss] in bytes. *)
Record raw_proc : Type := {
  rp_pid : Z;
  rp_name : string;
  rp_cpu_percent : Q;
  rp_rss : Z
}.

(** [ProcessInfo = namedtuple('ProcessInfo', ['name', 'cpu_percent', 'memory_mb', 'pid'])] *)
Record ProcessInfo : Type := {
  pi_name : string;
  pi_cpu_percent : Q;
  pi_memory_mb : Q;
  pi_pid : Z
}.

(** One step of a [for proc in psutil.process_iter(...)] loop: the body
    runs on the process, the body raises, or the iterator itself raises. *)
Inductive iter_item (A : Type) : Type :=
| Item (a : A)
| ItemRaises (e : exn)
| IterRaises (e : exn).
Arguments Item {A} a.
Arguments ItemRaises {A} e.
Arguments IterRaises {A} e.

(** What the host offers to the process ranking. *)
Record proc_env : Type := {
  has_psutil : bool;                        (* HAS_PSUTIL *)
  first_pass : list (iter_item unit);       (* proc.cpu_percent(interval=0.0) *)
  second_pass : list (iter_item raw_proc);  (* the with proc.oneshot() body *)
  cpu_count : option Z                      (* psutil.cpu_count(): int or None *)
}.

(** [except (psutil.NoSuchProcess, psutil.AccessDenied, psutil.ZombieProcess)] *)
Definition psutil_skipped (e : exn) : bool :=
  match e with
  | NoSuchProcess | AccessDenied | ZombieProcess => true
  | _ => false
  end.

Definition denylist : list string :=
  ["system"; "system idle process"; "system interrupts"].

Definition normalize_name (name : string) : string :=
  if endswith name ".exe" then substring 0 (String.length name - 4) name else name.

Definition is_denied (name : string) : bool :=
  existsb (String.eqb (lower name)) denylist.

(** [x / psutil.cpu_count()]: [None] is a TypeError, [0] a ZeroDivisionError. *)
Definition div_cpu_count (x : Q) (n : option Z) : pyres Q :=
  match n with
  | None => Raise TypeError
  | Some c => if Z.eqb c 0 then Raise ZeroDivisionError else Ret (x / inject_Z c)%Q
  end.

(** The body of the second loop: [None] is [continue]. *)
Definition second_pass_body (ncpu : option Z) (r : raw_proc) : pyres (option ProcessInfo) :=
  let name := normalize_name (rp_name r) in
  let memory_mb := (inject_Z (rp_rss r) / 1024 / 1024)%Q in
  cpu_percent <- div_cpu_count (rp_cpu_percent r) ncpu ;;
  if is_denied name then Ret None
  else Ret (Some {| pi_name := name;
                    pi_cpu_percent := round1 cpu_percent;
                    pi_memory_mb := round1 memory_mb;
                    pi_pid := rp_pid r |}).

Fixpoint first_pass_loop (items : list (iter_item unit)) : pyres unit :=
  match items with
  | [] => Ret tt
  | Item _ :: t => first_pass_loop t
  | ItemRaises e :: t => if psutil_skipped e then first_pass_loop t else Raise e
  | IterRaises e :: _ => Raise e
  end.

(** The second loop, returning [processes] in append order. *)
Fixpoint collect (ncpu : option Z) (items : list (iter_item raw_proc))
  : pyres (list ProcessInfo) :=
  match items with
  | [] => Ret []
  | Item r :: t =>
      match second_pass_body ncpu r with
      | Ret (Some p) => rest <- collect ncpu t ;; Ret (p :: rest)
      | Ret None => collect ncpu t
      | Raise e => if psutil_skipped e then collect ncpu t else Raise e
      end
  | ItemRaises e :: t => if psutil_skipped e then collect ncpu t else Raise e
  | IterRaises e :: _ => Raise e
  end.

(** [processes.sort(key=lambda x: x.cpu_percent, reverse=True)]: Python's
    sort is stable also with [reverse=True], so the result is the stable
    descending sort, written here as insertion sort. *)
Fixpoint insert_desc (p : ProcessInfo) (l : list ProcessInfo) : list ProcessInfo :=
  match l with
  | [] => [p]
  | y :: l' =>
      if Qltb (pi_cpu_percent y) (pi_cpu_percent p) then p :: l
      else y :: insert_desc p l'
  end.

Definition sort_by_cpu_desc (l : list ProcessInfo) : list ProcessInfo :=
  fold_left (fun acc p => insert_desc p acc) l [].

(** [l[:k]] for an int [k] *)
Definition py_slice_upto {A} (l : list A) (k : Z) : list A :=
  if Z.leb 0 k then firstn (Z.to_nat k) l
  else firstn (Z.to_nat (Z.of_nat (List.length l) + k)) l.

Definition get_top_processes (env : proc_env) (limit : Z) : pyres (list ProcessInfo) :=
  if negb (has_psutil env) then Ret []
  else
    match (_ <- first_pass_loop (first_pass env) ;;
           processes <- collect (cpu_count env) (second_pass env) ;;
           Ret (py_slice_upto (sort_by_cpu_desc processes) limit)) with
    | Ret l => Ret l
    | Raise _ => Ret []   (* except Exception: print(...); return [] *)
    end.

Definition sum_cpu (l : list ProcessInfo) : Q :=
  fold_right (fun p acc => pi_cpu_percent p + acc)%Q 0%Q l.

Definition sum_mem (l : list ProcessInfo) : Q :=
  fold_right (fun p acc => pi_memory_mb p + acc)%Q 0%Q l.

(** What [display_processes] prints: the rows and the [Total:] line. *)
Inductive proc_display : Type :=
| NoActiveProcesses
| ProcessTable (rows : list ProcessInfo) (total_cpu total_mem : Q).

Definition display_processes (processes : list ProcessInfo) : proc_display :=
  let processes := sort_by_cpu_desc processes in
  let top_processes := firstn 10 processes in
  match top_processes with
  | [] => NoActiveProcesses
  | _ => ProcessTable top_processes (sum_cpu processes) (sum_mem processes)
  end.

Definition display_totals (d : proc_display) : option (Q * Q) :=
  match d with
  | NoActiveProcesses => None
  | ProcessTable _ c m => Some (c, m)
  end.

(** ** Probes: CPU, memory and disks *)

(** Python values stored in the probes' dictionaries. *)
Inductive pyval : Type :=
| VStr (s : string)
| VNum (q : Q)
| VInt (z : Z)
| VNone.

Definition dict : Type := list (string * pyval).

(** [d[k]] *)
Fixpoint dict_get (d : dict) (k : string) : pyres pyval :=
  match d with
  | [] => Raise (KeyError k)
  | (k', v) :: d' => if String.eqb k' k then Ret v else dict_get d' k
  end.

(** [k in d] *)
Definition dict_mem (d : dict) (k : string) : bool :=
  existsb (fun kv => String.eqb (fst kv) k) d.

Definition int_or_none (n : option Z) : pyval :=
  match n with Some z => VInt z | None => VNone end.

Record partition : Type := {
  part_device : string;
  part_mountpoint : string
}.

(** What the host answers.  A [pyres] field raises where the call does. *)
Record host : Type := {
  h_has_psutil : bool;                       (* HAS_PSUTIL *)
  h_system : string;                         (* platform.system() *)
  h_os_cpu_count : option Z;                 (* os.cpu_count() *)
  h_cpu_percent : pyres Q;                   (* psutil.cpu_percent(interval=0.1) *)
  h_cpu_count : option Z;                    (* psutil.cpu_count() *)
  h_cpu_count_physical : option Z;           (* psutil.cpu_count(logical=False) *)
  h_freq_str : option string;                (* freq_str when its try block succeeds *)
  h_temperature : option string;             (* info['temperature'] when sensors report *)
  h_virtual_memory : pyres (Z * Z * Z * Q);  (* total, available, used, percent *)
  h_swap_memory : pyres (Z * Z * Q);         (* total, used, percent *)
  h_disk_partitions : pyres (list partition);
  h_disk_usage : string -> pyres (Z * Z * Z); (* total, used, free of a path *)
  h_cwd : string;                            (* os.path.abspath('.') *)
  h_first_pass : list (iter_item unit);
  h_second_pass : list (iter_item raw_proc)
}.

Definition proc_env_of (h : host) : proc_env :=
  {| has_psutil := h_has_psutil h;
     first_pass := h_first_pass h;
     second_pass := h_second_pass h;
     cpu_count := h_cpu_count h |}.

(** [psutil.cpu_count(logical=False) or logical_cores] *)
Definition py_or_count (a b : option Z) : option Z :=
  match a with
  | None | Some 0%Z => b
  | Some _ => a
  end.

Definition cpu_fallback (h : host) : dict :=
  [("usage", VStr "Unknown"); ("cores", int_or_none (h_os_cpu_count h));
   ("frequency", VStr "Unknown")].

Definition get_cpu_info (h : host) : dict :=
  if h_has_psutil h then
    match h_cpu_percent h with
    | Ret cpu_percent =>
        let logical_cores := h_cpu_count h in
        let physical_cores := py_or_count (h_cpu_count_physical h) logical_cores in
        let freq_str := match h_freq_str h with Some f => f | None => "Unknown" end in
        let info := [("usage", VNum cpu_percent);
                     ("logical_cores", int_or_none logical_cores);
                     ("physical_cores", int_or_none physical_cores);
                     ("frequency", VStr freq_str)] in
        if String.eqb (h_system h) "Windows" then
          match h_temperature h with
          | Some t => (info ++ [("temperature", VStr t)])%list
          | None => info
          end
        else info
    | Raise _ => cpu_fallback h
    end
  else cpu_fallback h.

Definition memory_fallback : dict :=
  map (fun k => (k, VStr "Unknown"))
      ["total"; "available"; "used"; "percent"; "swap_total"; "swap_used"; "swap_percent"].

Definition get_memory_info (h : host) : dict :=
  if h_has_psutil h then
    match h_virtual_memory h, h_swap_memory h with
    | Ret (total, available, used, percent), Ret (stotal, sused, spercent) =>
        [("total", VStr (format_bytes (inject_Z total)));
         ("available", VStr (format_bytes (inject_Z available)));
         ("used", VStr (format_bytes (inject_Z used)));
         ("percent", VNum percent);
         ("swap_total", VStr (format_bytes (inject_Z stotal)));
         ("swap_used", VStr (format_bytes (inject_Z sused)));
         ("swap_percent", VNum spercent)]
    | _, _ => memory_fallback
    end
  else memory_fallback.

(** The dictionary built for one volume; [(used / total) * 100] raises on
    an empty volume. *)
Definition disk_entry (device mountpoint : string) (usage : Z * Z * Z) : pyres dict :=
  let '(total, used, free) := usage in
  if Z.eqb total 0 then Raise ZeroDivisionError
  else Ret [("device", VStr device); ("mountpoint", VStr mountpoint);
            ("total", VStr (format_bytes (inject_Z total)));
            ("used", VStr (format_bytes (inject_Z used)));
            ("free", VStr (format_bytes (inject_Z free)));
            ("percent", VNum (inject_Z used / inject_Z total * 100)%Q)].

(** The body of the inner [try] for one partition. *)
Definition disk_query (h : host) (p : partition) : pyres dict :=
  usage <- h_disk_usage h (part_mountpoint p) ;;
  disk_entry (part_device p) (part_mountpoint p) usage.

(** The body of the fallback [try] on Windows. *)
Definition disk_query_cwd (h : host) : pyres dict :=
  usage <- h_disk_usage h (h_cwd h) ;;
  disk_entry "C:" (h_cwd h) usage.

(** [for partition in partitions: try ... except: continue] *)
Fixpoint disk_loop (h : host) (partitions : list partition) : list dict :=
  match partitions with
  | [] => []
  | p :: ps =>
      match disk_query h p with
      | Ret d => d :: disk_loop h ps
      | Raise _ => disk_loop h ps
      end
  end.

Definition get_disk_info (h : host) : list dict :=
  let disk_info :=
    if h_has_psutil h then
      match h_disk_partitions h with
      | Ret partitions => disk_loop h partitions
      | Raise _ => []
      end
    else [] in
  match disk_info with
  | [] =>
      if String.eqb (h_system h) "Windows" then
        match disk_query_cwd h with
        | Ret d => [d]
        | Raise _ => []
        end
      else []
  | _ => disk_info
  end.

(** ** Display and [monitor_once]: the values each display method reads
    and interpolates into its output, in order. *)

Definition display_cpu_info (cpu_info : dict) : pyres (list pyval) :=
  usage <- dict_get cpu_info "usage" ;;
  physical <- dict_get cpu_info "physical_cores" ;;
  logical <- dict_get cpu_info "logical_cores" ;;
  temp <- (if dict_mem cpu_info "temperature"
           then t <- dict_get cpu_info "temperature" ;; Ret [t]
           else Ret []) ;;
  freq <- dict_get cpu_info "frequency" ;;
  Ret ([usage; physical; logical] ++ temp ++ [freq])%list.

Definition display_memory_info (memory_info : dict) : pyres (list pyval) :=
  used <- dict_get memory_info "used" ;;
  total <- dict_get memory_info "total" ;;
  percent <- dict_get memory_info "percent" ;;
  available <- dict_get memory_info "available" ;;
  swap_total <- dict_get memory_info "swap_total" ;;
  swap <- (match swap_total with
           | VStr "0 B" => Ret []
           | _ => su <- dict_get memory_info "swap_used" ;;
                  sp <- dict_get memory_info "swap_percent" ;;
                  Ret [su; swap_total; sp]
           end) ;;
  Ret ([used; total; percent; available] ++ swap)%list.

Fixpoint display_disk_info (disk_info : list dict) : pyres (list pyval) :=
  match disk_info with
  | [] => Ret []
  | disk :: ds =>
      device <- dict_get disk "device" ;;
      mountpoint <- dict_get disk "mountpoint" ;;
      used <- dict_get disk "used" ;;
      total <- dict_get disk "total" ;;
      percent <- dict_get disk "percent" ;;
      rest <- display_disk_info ds ;;
      Ret ([device; mountpoint; used; total; percent] ++ rest)%list
  end.

(** [monitor_once], without the header (platform strings only). *)
Definition monitor_once (h : host)
  : pyres (list pyval * list pyval * list pyval * proc_display) :=
  cpu <- display_cpu_info (get_cpu_info h) ;;
  mem <- display_memory_info (get_memory_info h) ;;
  disks <- display_disk_info (get_disk_info h) ;;
  processes <- get_top_processes (proc_env_of h) 10 ;;
  Ret (cpu, mem, disks, display_processes processes).

Definition mk_raw (pid : Z) (name : string) (cpu : Z) (rss : Z) : raw_proc :=
  {| rp_pid := pid; rp_name := name; rp_cpu_percent := inject_Z cpu; rp_rss := rss |}.

Definition ranking_env (items : list (iter_item raw_proc)) (ncpu : Z) : proc_env :=
  {| has_psutil := true; first_pass := []; second_pass := items; cpu_count := Some ncpu |}.

(** Eleven processes at 1% of one core each, on a one-core host. *)
Definition eleven_env : proc_env :=
  ranking_env (map (fun i => Item (mk_raw (Z.of_nat i) "worker" 1 0)) (seq 1 11)) 1.

(** Two processes of equal CPU, the larger pid collected first. *)
Definition tie_env : proc_env :=
  ranking_env [Item (mk_raw 2 "b" 10 0); Item (mk_raw 1 "a" 10 0)] 1.

(** A process saturating one core of an eight-core host. *)
Definition busy_env : proc_env :=
  ranking_env [Item (mk_raw 42 "busy" 100 0)] 8.

(** One live process, and one that exits during the second pass. *)
Definition exiting_env : proc_env :=
  ranking_env [Item (mk_raw 5 "a" 0 0); ItemRaises NoSuchProcess] 1.

(** Removing the denylisted entries from the second pass. *)
Definition keep_item (it : iter_item raw_proc) : bool :=
  match it with
  | Item r => negb (is_denied (normalize_name (rp_name r)))
  | _ => true
  end.

Definition drop_denied (env : proc_env) : proc_env :=
  {| has_psutil := has_psutil env; first_pass := first_pass env;
     second_pass := filter keep_item (second_pass env); cpu_count := cpu_count env |}.

(** [None] and [0] make every division by [psutil.cpu_count()] raise. *)
Definition ncpu_invalid (n : option Z) : bool :=
  match n with None => true | Some c => Z.eqb c 0 end.

(** Number of divisions the loop performs before it stops. *)
Fixpoint scan_count (units : list string) (v : Q) : nat :=
  match units with
  | [] => 0
  | _ :: us => if Qltb v 1024 then 0 else S (scan_count us (v / 1024))
  end.

Definition cpu_desc (x y : ProcessInfo) : Prop :=
  (pi_cpu_percent y <= pi_cpu_percent x)%Q.


Definition busy_info : ProcessInfo :=
  {| pi_name := "busy"; pi_cpu_percent := Qmake 125 10; pi_memory_mb := Qmake 0 10;
     pi_pid := 42 |}.

(** The entries of the partitions whose query succeeds, in order. *)
Definition successful_entries (h : host) (parts : list partition) : list dict :=
  flat_map (fun p => match disk_query h p with Ret d => [d] | Raise _ => [] end) parts.

(** A host without psutil; its current directory's volume is queryable. *)
Definition no_psutil_host (system : string) : host :=
  {| h_has_psutil := false; h_system := system; h_os_cpu_count := Some 8%Z;
     h_cpu_percent := Raise OtherError; h_cpu_count := None; h_cpu_count_physical := None;
     h_freq_str := None; h_temperature := None;
     h_virtual_memory := Raise OtherError; h_swap_memory := Raise OtherError;
     h_disk_partitions := Raise OtherError;
     h_disk_usage := fun _ => Ret (1000, 400, 600)%Z;
     h_cwd := "/home/user"; h_first_pass := []; h_second_pass := [] |}.

Definition mount (dev mp : string) : partition :=
  {| part_device := dev; part_mountpoint := mp |}.

(** Three mounts; querying the second raises a permission error. *)
Definition three_mount_host : host :=
  {| h_has_psutil := true; h_system := "Linux"; h_os_cpu_count := Some 4%Z;
     h_cpu_percent := Ret 5%Q; h_cpu_count := Some 4%Z; h_cpu_count_physical := Some 2%Z;
     h_freq_str := None; h_temperature := None;
     h_virtual_memory := Ret (8192, 4096, 4096, 50%Q)%Z; h_swap_memory := Ret (0, 0, 0%Q)%Z;
     h_disk_partitions := Ret [mount "/dev/sda1" "/"; mount "/dev/sdb1" "/srv";
                               mount "/dev/sdc1" "/data"];
     h_disk_usage := fun mp => if String.eqb mp "/srv" then Raise PermissionError
                               else Ret (2048, 1024, 1024)%Z;
     h_cwd := "/"; h_first_pass := []; h_second_pass := [] |}.

(** ** Display rows *)

(** A Python [str] holds code points; a process name is written here as
    its UTF-8 bytes.  A byte [0b10xxxxxx] continues the code point before
    it. *)
Definition utf8_cont (c : ascii) : bool :=
  let n := nat_of_ascii c in (128 <=? n)%nat && (n <? 192)%nat.

(** [len(s)]: the number of code points. *)
Fixpoint py_len (s : string) : nat :=
  match s with
  | EmptyString => 0
  | String c s' => if utf8_cont c then py_len s' else S (py_len s')
  end.

(** [s[:k]]: the first [k] code points. *)
Fixpoint py_take (k : nat) (s : string) : string :=
  match s with
  | EmptyString => EmptyString
  | String c s' =>
      if utf8_cont c then String c (py_take k s')
      else match k with
           | O => EmptyString
           | S k' => String c (py_take k' s')
           end
  end.

(** [proc.name if len(proc.name) <= 22 else proc.name[:19] + '...'] *)
Definition display_name (name : string) : string :=
  if (py_len name <=? 22)%nat then name else py_take 19 name ++ "...".

(** The values one row of the process table interpolates. *)
Definition display_row (p : ProcessInfo) : string * Q * Q * Z :=
  (display_name (pi_name p), pi_cpu_percent p, pi_memory_mb p, pi_pid p).

Definition is_digit (c : ascii) : bool :=
  let n := nat_of_ascii c in (48 <=? n)%nat && (n <=? 57)%nat.

Fixpoint all_digits (s : string) : bool :=
  match s with
  | EmptyString => true
  | String c s' => is_digit c && all_digits s'
  end.

Definition set_first_pass (env : proc_env) (items : list (iter_item unit)) : proc_env :=
  {| has_psutil := has_psutil env; first_pass := items;
     second_pass := second_pass env; cpu_count := cpu_count env |}.

Definition set_second_pass (env : proc_env) (items : list (iter_item raw_proc)) : proc_env :=
  {| has_psutil := has_psutil env; first_pass := first_pass env;
     second_pass := items; cpu_count := cpu_count env |}.

(** Three processes: two tied at 10% collected around one at 30%. *)
Definition ranked_env : proc_env :=
  ranking_env [Item (mk_raw 2 "b" 10 0); Item (mk_raw 3 "c" 30 0); Item (mk_raw 1 "a" 10 0)] 1.

(** "e-acute" (U+00E9, UTF-8 bytes C3 A9) repeated [n] times. *)
Fixpoint e_acute_name (n : nat) : string :=
  match n with
  | O => EmptyString
  | S k => String (ascii_of_nat 195) (String (ascii_of_nat 169) (e_acute_name k))
  end.

(** A Windows host with psutil and a temperature sensor. *)
Definition windows_host : host :=
  {| h_has_psutil := true; h_system := "Windows"; h_os_cpu_count := Some 8%Z;
     h_cpu_percent := Ret 12%Q; h_cpu_count := Some 8%Z; h_cpu_count_physical := Some 4%Z;
     h_freq_str := Some "2400 MHz"; h_temperature := Some "55 C";
     h_virtual_memory := Ret (16, 8, 8, 50%Q)%Z; h_swap_memory := Ret (0, 0, 0%Q)%Z;
     h_disk_partitions := Ret [mount "C:" "C:\"];
     h_disk_usage := fun _ => Ret (100, 50, 50)%Z;
     h_cwd := "C:\"; h_first_pass := []; h_second_pass := [] |}.

(** ** Lemmas on the formatter *)

Lemma Qltb_iff (a b : Q) : Qltb a b = true <-> (a < b)%Q.
Proof. unfold Qltb, Qlt. apply Z.ltb_lt. Qed.

Lemma Qltb_false (a b : Q) : Qltb a b = false <-> (b <= a)%Q.
Proof. unfold Qltb, Qle. rewrite Z.ltb_ge. split; auto. Qed.

Lemma Qmake_div_1024 (n : Z) (p : positive) :
  (Qmake n p / 1024)%Q = Qmake n (p * 1024).
Proof. unfold Qdiv, Qinv, Qmult. simpl. rewrite Z.mul_1_r. reflexivity. Qed.

Lemma format_scan_step (u : string) (us : list string) (n : Z) (p : positive) :
  format_scan (u :: us) (Qmake n p) =
  if Z.ltb n (1024 * Zpos p) then (Qmake n p, u)
  else format_scan us (Qmake n (p * 1024)).
Proof.
  simpl. rewrite <- Qmake_div_1024. unfold Qltb. simpl.
  rewrite Z.mul_1_r. reflexivity.
Qed.

Ltac split_tests :=
  repeat match goal with
         | |- context [Z.ltb ?a ?b] => destruct (Z.ltb_spec a b)
         | |- context [Z.leb ?a ?b] => destruct (Z.leb_spec a b)
         end.

Lemma format_bytes_matches_spec (n : Z) :
  (0 <= n)%Z -> format_bytes (inject_Z n) = spec_format_bytes n.
Proof.
  intros Hn. unfold format_bytes, spec_format_bytes, spec_unit_index, byte_units.
  change (inject_Z n) with (Qmake n 1).
  rewrite !format_scan_step. simpl format_scan. simpl filter.
  split_tests; simpl in *; try lia; reflexivity.
Qed.

(** ** The double-precision model agrees with exact division below 2^53 *)

Lemma Qltb_compat (a a' b b' : Q) :
  (a == a')%Q -> (b == b')%Q -> Qltb a b = Qltb a' b'.
Proof.
  intros Ha Hb. destruct (Qltb a b) eqn:E1, (Qltb a' b') eqn:E2; try reflexivity.
  - apply Qltb_iff in E1. rewrite Ha, Hb in E1. apply Qltb_iff in E1. congruence.
  - apply Qltb_iff in E2. rewrite <- Ha, <- Hb in E2. apply Qltb_iff in E2. congruence.
Qed.

Lemma round_half_even_compat (q q' : Q) :
  (q == q')%Q -> round_half_even q = round_half_even q'.
Proof.
  intros H.
  assert (Hf : Qfloor q = Qfloor q') by (rewrite H; reflexivity).
  destruct q as [n d], q' as [n' d']. unfold Qeq in H. cbn [Qnum Qden] in H.
  unfold Qfloor in Hf. unfold round_half_even. cbn [Qnum Qden].
  rewrite !Z.mod_eq by lia. rewrite <- Hf. set (f := (n / Zpos d)%Z).
  assert (E1 : Z.ltb (2 * (n - Zpos d * f)) (Zpos d) =
               Z.ltb (2 * (n' - Zpos d' * f)) (Zpos d')).
  { destruct (Z.ltb_spec (2 * (n - Zpos d * f)) (Zpos d)),
       (Z.ltb_spec (2 * (n' - Zpos d' * f)) (Zpos d')); try reflexivity; exfalso; nia. }
  assert (E2 : Z.ltb (Zpos d) (2 * (n - Zpos d * f)) =
               Z.ltb (Zpos d') (2 * (n' - Zpos d' * f))).
  { destruct (Z.ltb_spec (Zpos d) (2 * (n - Zpos d * f))),
       (Z.ltb_spec (Zpos d') (2 * (n' - Zpos d' * f))); try reflexivity; exfalso; nia. }
  rewrite E1, E2. reflexivity.
Qed.

Lemma fmt1_compat (q q' : Q) : (q == q')%Q -> fmt1 q = fmt1 q'.
Proof.
  intros H. unfold fmt1, fmt1_nonneg.
  assert (Hs : Z.ltb (Qnum q) 0 = Z.ltb (Qnum q') 0).
  { destruct q as [n d], q' as [n' d']. unfold Qeq in H. cbn [Qnum Qden] in *.
    destruct (Z.ltb_spec n 0), (Z.ltb_spec n' 0); try reflexivity; exfalso; nia. }
  rewrite Hs.
  rewrite (round_half_even_compat (q * 10) (q' * 10)) by (rewrite H; reflexivity).
  rewrite (round_half_even_compat (- q * 10) (- q' * 10)) by (rewrite H; reflexivity).
  reflexivity.
Qed.

Lemma format_scan_compat (us : list string) (x x' : Q) :
  (x == x')%Q ->
  (fst (format_scan us x) == fst (format_scan us x'))%Q /\
  snd (format_scan us x) = snd (format_scan us x').
Proof.
  revert x x'. induction us as [| u us IH]; intros x x' H; cbn [format_scan].
  - split; [exact H | reflexivity].
  - rewrite (Qltb_compat x x' 1024 1024 H (Qeq_refl _)).
    destruct (Qltb x' 1024); [split; [exact H | reflexivity] |].
    apply IH. rewrite H. reflexivity.
Qed.

Lemma pow2_nonzero (z : Z) : ~ (pow2 z == 0)%Q.
Proof. unfold pow2. apply Qpower_not_0. unfold Qeq. simpl. discriminate. Qed.

Lemma pow2_pos (z : Z) : (0 < pow2 z)%Q.
Proof. unfold pow2. apply Qpower_0_lt. reflexivity. Qed.

Lemma pow2_plus (a b : Z) : (pow2 (a + b) == pow2 a * pow2 b)%Q.
Proof. unfold pow2. apply Qpower_plus. unfold Qeq. simpl. discriminate. Qed.

Lemma pow2_inject (z : Z) : (0 <= z)%Z -> (pow2 z == inject_Z (2 ^ z))%Q.
Proof. intros Hz. unfold pow2. symmetry. apply (Zpower_Qpower 2 z Hz). Qed.

Lemma pow2_le_mono (a b : Z) : (a <= b)%Z -> (pow2 a <= pow2 b)%Q.
Proof. intros H. unfold pow2. apply Qpower_le_compat_l; [exact H | discriminate]. Qed.

Lemma pow2_lt_inv (a b : Z) : (pow2 a < pow2 b)%Q -> (a < b)%Z.
Proof. intros H. unfold pow2 in H. apply (Qpower_lt_compat_l_inv (2 # 1)); [exact H | reflexivity]. Qed.

Lemma Z_pow_pos_eq (a : Z) : (0 <= a)%Z -> exists p, (2 ^ a)%Z = Zpos p.
Proof.
  intros Ha. pose proof (Z.pow_pos_nonneg 2 a ltac:(lia) Ha) as Hp.
  destruct (2 ^ a)%Z as [| p | p]; [lia | exists p; reflexivity | lia].
Qed.

Lemma binade_le (q : Q) : (0 < q)%Q -> (pow2 (binade q) <= q)%Q.
Proof.
  intros Hq. destruct q as [a b].
  assert (Ha : (0 < a)%Z) by (unfold Qlt in Hq; simpl in Hq; lia).
  unfold binade. cbn [Qnum Qden].
  destruct (Qltb (a # b) (pow2 (Z.log2 a - Z.log2 (Zpos b)))) eqn:E.
  - pose proof (Z.log2_spec a Ha) as [Ha1 Ha2].
    pose proof (Z.log2_spec (Zpos b) ltac:(lia)) as [Hb1 Hb2].
    pose proof (Z.log2_nonneg a). pose proof (Z.log2_nonneg (Zpos b)).
    replace (Z.log2 a - Z.log2 (Zpos b) - 1)%Z
      with (Z.log2 a + - Z.succ (Z.log2 (Zpos b)))%Z by lia.
    rewrite pow2_plus. unfold pow2 at 2. rewrite Qpower_opp. fold (pow2 (Z.succ (Z.log2 (Zpos b)))).
    rewrite !pow2_inject by lia.
    destruct (Z_pow_pos_eq (Z.succ (Z.log2 (Zpos b))) ltac:(lia)) as [P HP].
    rewrite HP in *. unfold Qle, Qmult, Qinv, inject_Z. cbn [Qnum Qden]. nia.
  - apply Qnot_lt_le. intros H. apply Qltb_iff in H. congruence.
Qed.

Lemma round_half_even_int (q : Q) (m : Z) :
  (q == inject_Z m)%Q -> round_half_even q = m.
Proof.
  intros H. rewrite (round_half_even_compat q (inject_Z m) H).
  unfold round_half_even. cbn [Qnum Qden inject_Z]. rewrite Z.mod_1_r, Z.div_1_r. reflexivity.
Qed.

Lemma Qabs_inject_Z (m : Z) : Qabs (inject_Z m) = inject_Z (Z.abs m).
Proof. reflexivity. Qed.

Lemma repr_bound (q : Q) (m j : Z) :
  (Z.abs m < 2 ^ 53)%Z -> (q == inject_Z m * pow2 (- j))%Q ->
  (Qabs q == inject_Z (Z.abs m) * pow2 (- j))%Q /\ (Qabs q < pow2 (53 - j))%Q.
Proof.
  intros Hm Hq.
  assert (Ha : (Qabs q == inject_Z (Z.abs m) * pow2 (- j))%Q).
  { rewrite Hq, Qabs_Qmult, Qabs_inject_Z.
    rewrite (Qabs_pos (pow2 (- j))) by (apply Qlt_le_weak, pow2_pos). reflexivity. }
  split; [exact Ha |]. rewrite Ha.
  replace (53 - j)%Z with (53 + - j)%Z by lia. rewrite pow2_plus, (pow2_inject 53) by lia.
  apply Qmult_lt_r; [apply pow2_pos |]. rewrite <- Zlt_Qlt. exact Hm.
Qed.

Lemma Qnum_neg_le (q : Q) : (Qnum q < 0)%Z -> (q <= 0)%Q.
Proof. destruct q as [n d]. unfold Qle. simpl. nia. Qed.

Lemma Qnum_nonneg_le (q : Q) : (0 <= Qnum q)%Z -> (0 <= q)%Q.
Proof. destruct q as [n d]. unfold Qle. simpl. nia. Qed.

(** A rational [m * 2^-j] with [|m| < 2^53] and [j <= 1074] is a double:
    rounding leaves it unchanged. *)
Lemma round_double_exact (q : Q) (m j : Z) :
  (0 <= j <= 1074)%Z -> (Z.abs m < 2 ^ 53)%Z -> (q == inject_Z m * pow2 (- j))%Q ->
  (round_double q == q)%Q.
Proof.
  intros Hj Hm Hq. unfold round_double.
  destruct (Z.eqb_spec (Qnum q) 0) as [H0 | H0].
  { destruct q as [n d]. cbn [Qnum] in H0. subst n. reflexivity. }
  assert (Hpos : (0 < Qabs q)%Q).
  { destruct q as [n d]. unfold Qabs, Qlt. cbn [Qnum Qden] in *. lia. }
  destruct (repr_bound q m j Hm Hq) as [Ha Hlt].
  cbv zeta.
  pose proof (binade_le (Qabs q) Hpos) as He.
  assert (He' : (binade (Qabs q) < 53 - j)%Z).
  { apply pow2_lt_inv. apply Qle_lt_trans with (Qabs q); assumption. }
  set (u := (Z.max (binade (Qabs q)) (-1022) - 52)%Z).
  assert (Hu : (u <= - j)%Z) by (unfold u; lia).
  assert (Hdiv : (Qabs q / pow2 u == inject_Z (Z.abs m * 2 ^ (- j - u)))%Q).
  { rewrite Ha. replace (- j)%Z with ((- j - u) + u)%Z at 1 by lia.
    rewrite pow2_plus, inject_Z_mult, <- (pow2_inject (- j - u)) by lia.
    field. apply pow2_nonzero. }
  rewrite (round_half_even_int _ _ Hdiv).
  assert (Hr : (inject_Z (Z.abs m * 2 ^ (- j - u)) * pow2 u == Qabs q)%Q).
  { rewrite <- Hdiv. field. apply pow2_nonzero. }
  destruct (Z.ltb_spec (Qnum q) 0) as [Hn | Hn].
  - rewrite Hr, Qabs_neg by (apply Qnum_neg_le; exact Hn). apply Qopp_involutive.
  - rewrite Hr. apply Qabs_pos, Qnum_nonneg_le. exact Hn.
Qed.

Lemma to_float_exact (q : Q) (m j : Z) :
  (0 <= j <= 1074)%Z -> (Z.abs m < 2 ^ 53)%Z -> (q == inject_Z m * pow2 (- j))%Q ->
  to_float q = Ret (round_double q).
Proof.
  intros Hj Hm Hq. unfold to_float.
  replace (Qltb (Qabs (round_double q)) (pow2 1024)) with true; [reflexivity |].
  symmetry. apply Qltb_iff. rewrite (round_double_exact q m j Hj Hm Hq).
  apply Qlt_le_trans with (pow2 (53 - j)).
  - apply (repr_bound q m j Hm Hq).
  - apply pow2_le_mono. lia.
Qed.

Lemma pow2_minus_10 (x : Q) (m j : Z) :
  (x == inject_Z m * pow2 (- j))%Q -> (x / 1024 == inject_Z m * pow2 (- (j + 10)))%Q.
Proof.
  intros Hx. rewrite Hx. replace (- (j + 10))%Z with (- j + -10)%Z by lia.
  rewrite pow2_plus. assert (H10 : (pow2 (-10) == 1 / 1024)%Q) by reflexivity.
  rewrite H10. field.
Qed.

Lemma format_scan_py_cons (u : string) (us : list string) (v : pynum) :
  format_scan_py (u :: us) v =
    if Qltb (pynum_value v) 1024 then s <- py_fmt1 v ;; Ret (s ++ " " ++ u)
    else v' <- py_div_1024 v ;; format_scan_py us v'.
Proof. reflexivity. Qed.

Lemma format_scan_cons (u : string) (us : list string) (x : Q) :
  format_scan (u :: us) x = if Qltb x 1024 then (x, u) else format_scan us (x / 1024).
Proof. reflexivity. Qed.

Lemma scan_py_float (us : list string) (x : Q) (m j : Z) :
  (0 <= j)%Z -> (j + 10 * Z.of_nat (List.length us) <= 1074)%Z -> (Z.abs m < 2 ^ 53)%Z ->
  (x == inject_Z m * pow2 (- j))%Q ->
  format_scan_py us (PyFloat x) =
    Ret (fmt1 (fst (format_scan us x)) ++ " " ++ snd (format_scan us x)).
Proof.
  revert x j. induction us as [| u us IH]; intros x j Hj Hlen Hm Hx.
  - reflexivity.
  - rewrite format_scan_py_cons, format_scan_cons. cbn [pynum_value List.length] in *.
    destruct (Qltb x 1024); [reflexivity |].
    cbn [py_div_1024 pybind].
    pose proof (pow2_minus_10 x m j Hx) as Hx'.
    assert (Hrd : (round_double (x / 1024) == x / 1024)%Q)
      by (apply (round_double_exact _ m (j + 10)); [lia | exact Hm | exact Hx']).
    rewrite (IH (round_double (x / 1024)) (j + 10)%Z); [| lia | lia | exact Hm |].
    + destruct (format_scan_compat us _ _ Hrd) as [Hv Hu].
      rewrite (fmt1_compat _ _ Hv), Hu. reflexivity.
    + rewrite Hrd. exact Hx'.
Qed.

(** Below 2^53 every division [format_bytes] performs is exact in double
    precision. *)
Lemma format_bytes_py_exact (n : Z) :
  (Z.abs n < 2 ^ 53)%Z -> format_bytes_py n = Ret (format_bytes (inject_Z n)).
Proof.
  intros Hn. unfold format_bytes_py, format_bytes, byte_units.
  rewrite format_scan_py_cons, format_scan_cons. cbn [pynum_value].
  assert (H0 : (inject_Z n == inject_Z n * pow2 (- 0))%Q) by (unfold pow2; simpl; ring).
  destruct (Qltb (inject_Z n) 1024).
  - cbn [py_fmt1]. rewrite (to_float_exact (inject_Z n) n 0) by (lia || exact H0).
    cbn [pybind].
    rewrite (fmt1_compat _ _ (round_double_exact (inject_Z n) n 0 ltac:(lia) Hn H0)).
    reflexivity.
  - cbn [py_div_1024].
    pose proof (pow2_minus_10 (inject_Z n) n 0 H0) as H10. simpl (0 + 10)%Z in H10.
    rewrite (to_float_exact (inject_Z n / 1024) n 10) by (lia || exact H10).
    cbn [pybind].
    assert (Hrd : (round_double (inject_Z n / 1024) == inject_Z n / 1024)%Q)
      by exact (round_double_exact _ n 10 ltac:(lia) Hn H10).
    rewrite (scan_py_float ["KB"; "MB"; "GB"; "TB"] _ n 10); [| lia | simpl; lia | exact Hn |].
    + destruct (format_scan_compat ["KB"; "MB"; "GB"; "TB"] _ _ Hrd) as [Hv Hu].
      rewrite (fmt1_compat _ _ Hv), Hu.
      destruct (format_scan ["KB"; "MB"; "GB"; "TB"] (inject_Z n / 1024)). reflexivity.
    + rewrite Hrd. exact H10.
Qed.

Lemma format_scan_unit (units : list string) (v : Q) :
  snd (format_scan units v) = nth (scan_count units v) (units ++ ["PB"]) "PB".
Proof.
  revert v. induction units as [| u us IH]; intros v; simpl; [reflexivity |].
  destruct (Qltb v 1024); simpl; auto.
Qed.

Lemma scan_count_le_length (units : list string) (v : Q) :
  (scan_count units v <= List.length units)%nat.
Proof.
  revert v. induction units as [| u us IH]; intros v; simpl; [lia |].
  destruct (Qltb v 1024); [lia | specialize (IH (v / 1024)%Q); lia].
Qed.

Lemma scan_count_mono (units : list string) (a b : Q) :
  (a <= b)%Q -> (scan_count units a <= scan_count units b)%nat.
Proof.
  revert a b. induction units as [| u us IH]; intros a b Hab; simpl; [lia |].
  destruct (Qltb a 1024) eqn:Ea; [lia |].
  destruct (Qltb b 1024) eqn:Eb.
  - apply Qltb_false in Ea. apply Qltb_iff in Eb.
    exfalso. apply (Qlt_not_le b 1024); [exact Eb |].
    apply Qle_trans with a; assumption.
  - apply le_n_S, IH. unfold Qdiv.
    apply Qmult_le_compat_r; [exact Hab | discriminate].
Qed.

Lemma unit_rank_nth (i : nat) :
  (i <= 5)%nat -> unit_rank (nth i (byte_units ++ ["PB"]) "PB") = i.
Proof.
  intros Hi. do 6 (destruct i as [| i]; [reflexivity |]). lia.
Qed.

Lemma unit_rank_format_unit (v : Q) :
  unit_rank (format_unit v) = scan_count byte_units v.
Proof.
  unfold format_unit. rewrite format_scan_unit. apply unit_rank_nth.
  apply (scan_count_le_length byte_units v).
Qed.

(** ** Lemmas on the ranking *)

Lemma Qplus_comm_L (x y : Q) : (x + y)%Q = (y + x)%Q.
Proof.
  destruct x as [a b], y as [c d]. unfold Qplus. simpl.
  f_equal; [ring | apply Pos.mul_comm].
Qed.

Lemma Qplus_assoc_L (x y z : Q) : (x + (y + z))%Q = (x + y + z)%Q.
Proof.
  destruct x as [a b], y as [c d], z as [e f]. unfold Qplus. simpl.
  f_equal; [rewrite !Pos2Z.inj_mul; ring | apply Pos.mul_assoc].
Qed.

Lemma insert_desc_perm (p : ProcessInfo) (l : list ProcessInfo) :
  Permutation (p :: l) (insert_desc p l).
Proof.
  induction l as [| y l IH]; simpl; [reflexivity |].
  destruct (Qltb (pi_cpu_percent y) (pi_cpu_percent p)); [reflexivity |].
  rewrite perm_swap. constructor. exact IH.
Qed.

Lemma sort_fold_perm (l acc : list ProcessInfo) :
  Permutation (acc ++ l) (fold_left (fun acc p => insert_desc p acc) l acc).
Proof.
  revert acc. induction l as [| x l IH]; intros acc; simpl.
  - rewrite app_nil_r. reflexivity.
  - rewrite <- IH, <- insert_desc_perm. simpl.
    symmetry. apply Permutation_middle.
Qed.

Lemma sort_perm (l : list ProcessInfo) : Permutation l (sort_by_cpu_desc l).
Proof. apply (sort_fold_perm l []). Qed.

Lemma insert_desc_hdrel (y p : ProcessInfo) (l : list ProcessInfo) :
  HdRel cpu_desc y l -> cpu_desc y p -> HdRel cpu_desc y (insert_desc p l).
Proof.
  intros Hd Hyp. destruct l as [| z l]; simpl.
  - constructor. exact Hyp.
  - destruct (Qltb (pi_cpu_percent z) (pi_cpu_percent p)); constructor; auto.
    inversion Hd; assumption.
Qed.

Lemma insert_desc_sorted (p : ProcessInfo) (l : list ProcessInfo) :
  Sorted cpu_desc l -> Sorted cpu_desc (insert_desc p l).
Proof.
  induction l as [| y l IH]; intros Hs; simpl.
  - repeat constructor.
  - destruct (Qltb (pi_cpu_percent y) (pi_cpu_percent p)) eqn:E.
    + apply Qltb_iff in E. constructor; [exact Hs |].
      constructor. unfold cpu_desc. apply Qlt_le_weak. exact E.
    + apply Qltb_false in E. apply Sorted_inv in Hs as [Hs Hd].
      constructor; [apply IH; exact Hs |].
      apply insert_desc_hdrel; [exact Hd | exact E].
Qed.

Lemma sort_fold_sorted (l acc : list ProcessInfo) :
  Sorted cpu_desc acc ->
  Sorted cpu_desc (fold_left (fun acc p => insert_desc p acc) l acc).
Proof.
  revert acc. induction l as [| x l IH]; intros acc Hs; simpl; [exact Hs |].
  apply IH, insert_desc_sorted, Hs.
Qed.

Lemma sort_sorted (l : list ProcessInfo) : Sorted cpu_desc (sort_by_cpu_desc l).
Proof. apply sort_fold_sorted. constructor. Qed.

Lemma cpu_desc_trans : Relations_1.Transitive cpu_desc.
Proof. intros x y z Hxy Hyz. unfold cpu_desc in *. eapply Qle_trans; eauto. Qed.





Lemma sum_cpu_perm (l l' : list ProcessInfo) : Permutation l l' -> sum_cpu l = sum_cpu l'.
Proof.
  induction 1; simpl; try congruence.
  rewrite !Qplus_assoc_L, (Qplus_comm_L (pi_cpu_percent y)). reflexivity.
Qed.

Lemma sum_mem_perm (l l' : list ProcessInfo) : Permutation l l' -> sum_mem l = sum_mem l'.
Proof.
  induction 1; simpl; try congruence.
  rewrite !Qplus_assoc_L, (Qplus_comm_L (pi_memory_mb y)). reflexivity.
Qed.

Lemma sorted_firstn {A} (R : A -> A -> Prop) (k : nat) (l : list A) :
  Sorted R l -> Sorted R (firstn k l).
Proof.
  revert l. induction k as [| k IH]; intros l Hs; simpl; [constructor |].
  destruct l as [| x l]; [constructor |].
  apply Sorted_inv in Hs as [Hs Hd]. constructor; [apply IH, Hs |].
  destruct k, l; simpl; try constructor. inversion Hd; assumption.
Qed.

Lemma py_slice_firstn {A} (l : list A) (k : Z) :
  exists n, py_slice_upto l k = firstn n l.
Proof. unfold py_slice_upto. destruct (Z.leb 0 k); eexists; reflexivity. Qed.

Lemma in_firstn_in {A} (n : nat) (l : list A) (x : A) : In x (firstn n l) -> In x l.
Proof. intros H. rewrite <- (firstn_skipn n l). apply in_or_app. left. exact H. Qed.


(** Unfolding [get_top_processes] once the collection is known. *)
Lemma get_top_processes_collected (env : proc_env) (limit : Z) (coll : list ProcessInfo) :
  has_psutil env = true ->
  first_pass_loop (first_pass env) = Ret tt ->
  collect (cpu_count env) (second_pass env) = Ret coll ->
  get_top_processes env limit = Ret (py_slice_upto (sort_by_cpu_desc coll) limit).
Proof.
  intros Hps H1 H2. unfold get_top_processes. rewrite Hps, H1. simpl. rewrite H2. reflexivity.
Qed.

Example format_bytes_0 : format_bytes 0 = "0.0 B". Proof. vm_compute. reflexivity. Qed.
Example format_bytes_1536 : format_bytes (inject_Z 1536) = "1.5 KB". Proof. vm_compute. reflexivity. Qed.
Example format_bytes_1280 : format_bytes (inject_Z 1280) = "1.2 KB". Proof. vm_compute. reflexivity. Qed.
Example format_bytes_big : format_bytes (inject_Z (2^60)) = "1024.0 PB". Proof. vm_compute. reflexivity. Qed.
Example spec_big : spec_format_bytes (2^60) = "1024.0 PB". Proof. vm_compute. reflexivity. Qed.

Example gtp_ex :
  get_top_processes {| has_psutil := true; first_pass := [];
     second_pass := [Item (mk_raw 4 "System" 50 0); Item (mk_raw 7 "a.exe" 100 (3*1048576));
                     ItemRaises AccessDenied; Item (mk_raw 9 "b" 300 1048576)];
     cpu_count := Some 8%Z |} 10
  = Ret [ {| pi_name := "b"; pi_cpu_percent := Qmake 375 10; pi_memory_mb := Qmake 10 10; pi_pid := 9 |};
          {| pi_name := "a"; pi_cpu_percent := Qmake 125 10; pi_memory_mb := Qmake 30 10; pi_pid := 7 |} ].
Proof. vm_compute. reflexivity. Qed.

(** ** More lemmas on the ranking *)

Lemma collect_origin (ncpu : option Z) (items : list (iter_item raw_proc))
      (coll : list ProcessInfo) (p : ProcessInfo) :
  collect ncpu items = Ret coll -> In p coll ->
  exists r c, In (Item r) items /\ ncpu = Some c /\ c <> 0%Z /\
    pi_pid p = rp_pid r /\
    pi_cpu_percent p = round1 (rp_cpu_percent r / inject_Z c) /\
    pi_name p = normalize_name (rp_name r) /\ is_denied (pi_name p) = false.
Proof.
  revert coll. induction items as [| it t IH]; intros coll Hc Hin; simpl in Hc.
  - inversion Hc; subst. destruct Hin.
  - destruct it as [r | e | e].
    + destruct (second_pass_body ncpu r) as [[p' |] | e] eqn:Eb.
      * destruct (collect ncpu t) as [rest |] eqn:Et; simpl in Hc; [| discriminate].
        inversion Hc; subst coll. destruct Hin as [<- | Hin].
        -- unfold second_pass_body in Eb. destruct ncpu as [c |]; simpl in Eb; [| discriminate].
           destruct (Z.eqb_spec c 0); simpl in Eb; [discriminate |].
           destruct (is_denied (normalize_name (rp_name r))) eqn:Ed; [discriminate |].
           inversion Eb; subst. exists r, c. simpl. repeat split; auto.
        -- destruct (IH rest eq_refl Hin) as (r' & c & Hr & Hrest).
           exists r', c. split; [right; exact Hr | exact Hrest].
      * destruct (IH coll Hc Hin) as (r' & c & Hr & Hrest).
        exists r', c. split; [right; exact Hr | exact Hrest].
      * destruct (psutil_skipped e); [| discriminate].
        destruct (IH coll Hc Hin) as (r' & c & Hr & Hrest).
        exists r', c. split; [right; exact Hr | exact Hrest].
    + destruct (psutil_skipped e); [| discriminate].
      destruct (IH coll Hc Hin) as (r' & c & Hr & Hrest).
      exists r', c. split; [right; exact Hr | exact Hrest].
    + discriminate.
Qed.

Lemma body_invalid (ncpu : option Z) (r : raw_proc) :
  ncpu_invalid ncpu = true ->
  exists e, second_pass_body ncpu r = Raise e /\ psutil_skipped e = false.
Proof.
  intros Hn. unfold second_pass_body. destruct ncpu as [c |]; simpl in *.
  - rewrite Hn. simpl. exists ZeroDivisionError. split; reflexivity.
  - exists TypeError. split; reflexivity.
Qed.

Lemma collect_invalid (ncpu : option Z) (items : list (iter_item raw_proc))
      (coll : list ProcessInfo) :
  ncpu_invalid ncpu = true -> collect ncpu items = Ret coll -> coll = [].
Proof.
  intros Hn. revert coll. induction items as [| it t IH]; intros coll Hc; simpl in Hc.
  - inversion Hc. reflexivity.
  - destruct it as [r | e | e].
    + destruct (body_invalid ncpu r Hn) as (e & Eb & Es). rewrite Eb, Es in Hc. discriminate.
    + destruct (psutil_skipped e); [apply IH, Hc | discriminate].
    + discriminate.
Qed.

Lemma collect_drop_denied (ncpu : option Z) (items : list (iter_item raw_proc)) :
  ncpu_invalid ncpu = false ->
  collect ncpu items = collect ncpu (filter keep_item items).
Proof.
  intros Hn. induction items as [| it t IH]; [reflexivity |].
  destruct it as [r | e | e]; cbn [filter keep_item collect];
    try (rewrite IH; reflexivity); try reflexivity.
  assert (Hdiv : exists q, div_cpu_count (rp_cpu_percent r) ncpu = Ret q).
  { destruct ncpu as [c |]; simpl in *; [| discriminate]. rewrite Hn. eexists; reflexivity. }
  destruct Hdiv as [q Hq].
  unfold second_pass_body. rewrite Hq. cbn [pybind].
  destruct (is_denied (normalize_name (rp_name r))) eqn:Ed; cbn [negb collect].
  - exact IH.
  - unfold second_pass_body. rewrite Hq. cbn [pybind]. rewrite Ed, IH. reflexivity.
Qed.

Lemma get_top_processes_invalid (env : proc_env) (limit : Z) :
  ncpu_invalid (cpu_count env) = true -> get_top_processes env limit = Ret [].
Proof.
  intros Hn. unfold get_top_processes.
  destruct (has_psutil env); simpl; [| reflexivity].
  destruct (first_pass_loop (first_pass env)); simpl; [| reflexivity].
  destruct (collect (cpu_count env) (second_pass env)) eqn:Ec; simpl; [| reflexivity].
  apply collect_invalid in Ec; [| exact Hn]. subst.
  unfold py_slice_upto. simpl. destruct (Z.leb 0 limit); rewrite firstn_nil; reflexivity.
Qed.

Lemma get_top_processes_cases (env : proc_env) (limit : Z) :
  get_top_processes env limit = Ret [] \/
  exists coll, has_psutil env = true /\ first_pass_loop (first_pass env) = Ret tt /\
    collect (cpu_count env) (second_pass env) = Ret coll /\
    get_top_processes env limit = Ret (py_slice_upto (sort_by_cpu_desc coll) limit).
Proof.
  unfold get_top_processes.
  destruct (has_psutil env) eqn:Hps; simpl; [| left; reflexivity].
  destruct (first_pass_loop (first_pass env)) as [[] |] eqn:H1; simpl; [| left; reflexivity].
  destruct (collect (cpu_count env) (second_pass env)) as [coll |] eqn:H2; simpl;
    [| left; reflexivity].
  right. exists coll. repeat split; reflexivity.
Qed.

Lemma collect_skip (ncpu : option Z) (l1 l2 : list (iter_item raw_proc)) (e : exn) :
  psutil_skipped e = true ->
  collect ncpu (l1 ++ ItemRaises e :: l2) = collect ncpu (l1 ++ l2).
Proof.
  intros He. induction l1 as [| it t IH]; simpl; [rewrite He; reflexivity |].
  destruct it as [r | e' | e']; [| rewrite IH; reflexivity | reflexivity].
  destruct (second_pass_body ncpu r) as [[p |] | e']; rewrite ?IH; reflexivity.
Qed.

Lemma first_pass_skip (l1 l2 : list (iter_item unit)) (e : exn) :
  psutil_skipped e = true ->
  first_pass_loop (l1 ++ ItemRaises e :: l2) = first_pass_loop (l1 ++ l2).
Proof.
  intros He. induction l1 as [| it t IH]; simpl; [rewrite He; reflexivity |].
  destruct it as [[] | e' | e']; [exact IH | rewrite IH; reflexivity | reflexivity].
Qed.

(** * Claims *)

(** ** Process ranking *)

(** C1 (corrected).  The totals [display_processes] prints are the sums of
    cpu_percent and memory_mb over the list [get_top_processes] returned,
    which is already the top [limit] entries of the cpu-sorted filtered set;
    they are the sums over the whole filtered set when that set has at most
    [limit] entries. *)
Theorem C1_totals_over_returned_list (env : proc_env) (limit : Z) (coll : list ProcessInfo)
  (Hps : has_psutil env = true)
  (H1 : first_pass_loop (first_pass env) = Ret tt)
  (H2 : collect (cpu_count env) (second_pass env) = Ret coll) :
  exists out, get_top_processes env limit = Ret out /\
    out = py_slice_upto (sort_by_cpu_desc coll) limit /\
    display_totals (display_processes out) =
      match out with [] => None | _ => Some (sum_cpu out, sum_mem out) end /\
    ((0 <= limit)%Z -> (List.length coll <= Z.to_nat limit)%nat ->
       sum_cpu out = sum_cpu coll /\ sum_mem out = sum_mem coll).
Proof.
  exists (py_slice_upto (sort_by_cpu_desc coll) limit).
  split; [apply get_top_processes_collected; assumption |].
  split; [reflexivity |]. split.
  - generalize (py_slice_upto (sort_by_cpu_desc coll) limit) as out. intros out.
    unfold display_processes.
    destruct out as [| x xs]; [reflexivity |].
    pose proof (sort_perm (x :: xs)) as Hp.
    destruct (sort_by_cpu_desc (x :: xs)) as [| y ys] eqn:Es.
    + apply Permutation_length in Hp. discriminate.
    + change (firstn 10 (y :: ys)) with (y :: firstn 9 ys). cbn [display_totals].
      rewrite (sum_cpu_perm _ _ Hp), (sum_mem_perm _ _ Hp). reflexivity.
  - intros Hl Hlen. unfold py_slice_upto.
    destruct (Z.leb_spec 0 limit); [| lia].
    pose proof (sort_perm coll) as Hp.
    rewrite firstn_all2.
    + split; symmetry; [apply sum_cpu_perm | apply sum_mem_perm]; exact Hp.
    + rewrite <- (Permutation_length Hp). exact Hlen.
Qed.

Lemma C1_witness :
  exists coll, collect (cpu_count tie_env) (second_pass tie_env) = Ret coll /\
  exists out, get_top_processes tie_env 10 = Ret out /\
    out = py_slice_upto (sort_by_cpu_desc coll) 10 /\
    display_totals (display_processes out) =
      match out with [] => None | _ => Some (sum_cpu out, sum_mem out) end /\
    ((0 <= 10)%Z -> (List.length coll <= Z.to_nat 10)%nat ->
       sum_cpu out = sum_cpu coll /\ sum_mem out = sum_mem coll).
Proof.
  eexists. split; [reflexivity |].
  apply C1_totals_over_returned_list; reflexivity.
Defined.

(** C1 counterexample: with eleven processes at 1.0% each, [monitor_once]
    ([limit=10]) prints a CPU total of 10.0 while the filtered set sums to 11. *)
Lemma C1_total_ignores_truncated_entries :
  exists coll out t m,
    collect (cpu_count eleven_env) (second_pass eleven_env) = Ret coll /\
    get_top_processes eleven_env 10 = Ret out /\
    display_totals (display_processes out) = Some (t, m) /\
    (t == 10)%Q /\ (sum_cpu coll == 11)%Q.
Proof.
  do 4 eexists. split; [reflexivity |]. split; [reflexivity |].
  split; [reflexivity |]. split; vm_compute; reflexivity.
Qed.




(** C6.  Entries whose normalized name lower-cases to a denylist name have
    no influence on [get_top_processes] (removing them from the input gives
    the same result, so they add nothing to the totals), and no returned
    entry has such a name. *)
Theorem C6_denylist_excluded (env : proc_env) (limit : Z) :
  get_top_processes env limit = get_top_processes (drop_denied env) limit /\
  match get_top_processes env limit with
  | Ret out => Forall (fun p => is_denied (pi_name p) = false) out
  | Raise _ => True
  end.
Proof.
  split.
  - destruct (ncpu_invalid (cpu_count env)) eqn:En.
    + rewrite !get_top_processes_invalid by exact En. reflexivity.
    + unfold get_top_processes. cbn [drop_denied has_psutil first_pass second_pass cpu_count].
      rewrite <- collect_drop_denied by exact En. reflexivity.
  - destruct (get_top_processes_cases env limit) as [-> | (coll & _ & _ & H2 & ->)];
      [constructor |].
    apply Forall_forall. intros p Hp.
    destruct (py_slice_firstn (sort_by_cpu_desc coll) limit) as [n Hn].
    rewrite Hn in Hp. apply in_firstn_in in Hp.
    apply (Permutation_in p (Permutation_sym (sort_perm coll))) in Hp.
    destruct (collect_origin _ _ _ _ H2 Hp) as (r & c & _ & _ & _ & _ & _ & _ & Hd).
    exact Hd.
Qed.

(** C7.  Every reported entry comes from a process of the second pass and
    its cpu_percent is psutil's percentage for it divided by
    [psutil.cpu_count()] (the logical core count), rounded to one decimal. *)
Theorem C7_cpu_per_core (env : proc_env) (limit : Z) (out : list ProcessInfo) (p : ProcessInfo)
  (H : get_top_processes env limit = Ret out) (Hin : In p out) :
  exists r c, In (Item r) (second_pass env) /\ cpu_count env = Some c /\ c <> 0%Z /\
    pi_pid p = rp_pid r /\ pi_cpu_percent p = round1 (rp_cpu_percent r / inject_Z c).
Proof.
  destruct (get_top_processes_cases env limit) as [E | (coll & _ & _ & H2 & E)];
    rewrite E in H; inversion H; subst out; [destruct Hin |].
  destruct (py_slice_firstn (sort_by_cpu_desc coll) limit) as [n Hn].
  rewrite Hn in Hin. apply in_firstn_in in Hin.
  apply (Permutation_in p (Permutation_sym (sort_perm coll))) in Hin.
  destruct (collect_origin _ _ _ _ H2 Hin) as (r & c & Hr & Hc & Hc0 & Hpid & Hcpu & _).
  exists r, c. repeat split; assumption.
Qed.

Lemma C7_witness :
  get_top_processes busy_env 10 = Ret [busy_info] /\
  (exists r c, In (Item r) (second_pass busy_env) /\ cpu_count busy_env = Some c /\
     c <> 0%Z /\ pi_pid busy_info = rp_pid r /\
     pi_cpu_percent busy_info = round1 (rp_cpu_percent r / inject_Z c)) /\
  pi_cpu_percent busy_info = Qmake 125 10.
Proof.
  split; [vm_compute; reflexivity |]. split; [| reflexivity].
  apply (C7_cpu_per_core busy_env 10 [busy_info] busy_info).
  - vm_compute. reflexivity.
  - left. reflexivity.
Defined.

(** C10.  [get_top_processes] never raises: it always returns a list.  In
    the failure cases (psutil missing, or an exception other than a
    per-process NoSuchProcess/AccessDenied/ZombieProcess escaping either
    pass) that list is empty.  A process that disappears or denies access
    in either pass is only skipped: the result is the one of the same run
    without that process, so the other processes are still returned. *)
Theorem C10_never_raises (env : proc_env) (limit : Z) :
  (exists l, get_top_processes env limit = Ret l /\
    (has_psutil env = false -> l = []) /\
    (forall e, first_pass_loop (first_pass env) = Raise e -> l = []) /\
    (forall e, collect (cpu_count env) (second_pass env) = Raise e -> l = []) /\
    (forall coll, has_psutil env = true -> first_pass_loop (first_pass env) = Ret tt ->
       collect (cpu_count env) (second_pass env) = Ret coll ->
       l = py_slice_upto (sort_by_cpu_desc coll) limit)) /\
  (forall l1 l2 e, psutil_skipped e = true ->
     first_pass env = (l1 ++ ItemRaises e :: l2)%list ->
     get_top_processes env limit = get_top_processes (set_first_pass env (l1 ++ l2)) limit) /\
  (forall l1 l2 e, psutil_skipped e = true ->
     second_pass env = (l1 ++ ItemRaises e :: l2)%list ->
     get_top_processes env limit = get_top_processes (set_second_pass env (l1 ++ l2)) limit).
Proof.
  split; [| split].
  - unfold get_top_processes.
    destruct (has_psutil env) eqn:Hps; simpl.
    2:{ eexists. split; [reflexivity |]. repeat split; intros; try reflexivity; congruence. }
    destruct (first_pass_loop (first_pass env)) as [[] | e1] eqn:H1; simpl.
    2:{ eexists. split; [reflexivity |]. repeat split; intros; try reflexivity; congruence. }
    destruct (collect (cpu_count env) (second_pass env)) as [coll | e2] eqn:H2; simpl.
    + eexists. split; [reflexivity |].
      repeat split; intros; congruence.
    + eexists. split; [reflexivity |]. repeat split; intros; try reflexivity; congruence.
  - intros l1 l2 e He Hs. unfold get_top_processes.
    cbn [set_first_pass has_psutil first_pass second_pass cpu_count].
    rewrite Hs, first_pass_skip by exact He. reflexivity.
  - intros l1 l2 e He Hs. unfold get_top_processes.
    cbn [set_second_pass has_psutil first_pass second_pass cpu_count].
    rewrite Hs, collect_skip by exact He. reflexivity.
Qed.

(** ** Probes *)

Lemma disk_loop_successful (h : host) (parts : list partition) :
  disk_loop h parts = successful_entries h parts.
Proof.
  induction parts as [| p ps IH]; simpl; [reflexivity |].
  destruct (disk_query h p); simpl; rewrite IH; reflexivity.
Qed.

(** C3 (code bug).  Without psutil, [get_cpu_info] returns the fallback
    dictionary, which has a ["cores"] key but no ["physical_cores"] or
    ["logical_cores"]; [display_cpu_info] reads ["physical_cores"] and raises
    KeyError, so [monitor_once] raises. *)
Theorem C3_fallback_cpu_info_breaks_display (h : host) (Hno : h_has_psutil h = false) :
  get_cpu_info h = cpu_fallback h /\
  dict_mem (get_cpu_info h) "physical_cores" = false /\
  dict_mem (get_cpu_info h) "logical_cores" = false /\
  display_cpu_info (get_cpu_info h) = Raise (KeyError "physical_cores") /\
  monitor_once h = Raise (KeyError "physical_cores").
Proof.
  assert (E : get_cpu_info h = cpu_fallback h) by (unfold get_cpu_info; rewrite Hno; reflexivity).
  unfold monitor_once. rewrite E. repeat split; reflexivity.
Qed.

Lemma C3_witness :
  h_has_psutil (no_psutil_host "Linux") = false /\
  get_cpu_info (no_psutil_host "Linux") = cpu_fallback (no_psutil_host "Linux") /\
  dict_mem (get_cpu_info (no_psutil_host "Linux")) "physical_cores" = false /\
  dict_mem (get_cpu_info (no_psutil_host "Linux")) "logical_cores" = false /\
  display_cpu_info (get_cpu_info (no_psutil_host "Linux")) = Raise (KeyError "physical_cores") /\
  monitor_once (no_psutil_host "Linux") = Raise (KeyError "physical_cores").
Proof.
  split; [reflexivity |]. apply C3_fallback_cpu_info_breaks_display. reflexivity.
Defined.

(** C8.  Disk enumeration with psutil: when some partition can be queried,
    the result is exactly the successfully queried partitions, in order; every
    entry comes from a successful query (of a partition, or of the current
    directory in the fallback); with three mounts of which the second raises,
    the result is the two other entries. *)
Theorem C8_disk_fault_isolated (h : host) (parts : list partition)
  (Hps : h_has_psutil h = true) (Hparts : h_disk_partitions h = Ret parts) :
  (successful_entries h parts <> [] -> get_disk_info h = successful_entries h parts) /\
  (forall d, In d (get_disk_info h) ->
     (exists p, In p parts /\ disk_query h p = Ret d) \/ disk_query_cwd h = Ret d) /\
  (forall a b c da dc e, parts = [a; b; c] ->
     disk_query h a = Ret da -> disk_query h b = Raise e -> disk_query h c = Ret dc ->
     get_disk_info h = [da; dc]).
Proof.
  unfold get_disk_info. rewrite Hps, Hparts, disk_loop_successful.
  split; [| split].
  - intros Hne. destruct (successful_entries h parts); [contradiction | reflexivity].
  - intros d Hd. destruct (successful_entries h parts) as [| x l] eqn:Es.
    + right. destruct (String.eqb (h_system h) "Windows"); [| destruct Hd].
      destruct (disk_query_cwd h) as [d' |]; [| destruct Hd].
      destruct Hd as [<- | []]. reflexivity.
    + left. rewrite <- Es in Hd. unfold successful_entries in Hd.
      apply in_flat_map in Hd as [p [Hp Hd]]. exists p. split; [exact Hp |].
      destruct (disk_query h p); [destruct Hd as [<- | []]; reflexivity | destruct Hd].
  - intros a b c da dc e -> Ha Hb Hc. unfold successful_entries. simpl.
    rewrite Ha, Hb, Hc. reflexivity.
Qed.

Lemma C8_witness :
  (successful_entries three_mount_host
     [mount "/dev/sda1" "/"; mount "/dev/sdb1" "/srv"; mount "/dev/sdc1" "/data"] <> [] ->
   get_disk_info three_mount_host = successful_entries three_mount_host
     [mount "/dev/sda1" "/"; mount "/dev/sdb1" "/srv"; mount "/dev/sdc1" "/data"]) /\
  List.length (get_disk_info three_mount_host) = 2%nat.
Proof.
  split; [| vm_compute; reflexivity].
  apply (C8_disk_fault_isolated three_mount_host); reflexivity.
Defined.

(** C9 (corrected).  Without psutil the CPU probe's fallback carries the OS
    logical core count under ["cores"]; the disk probe falls back to the
    current directory's volume only on Windows (and only when its query
    succeeds), and to no entry on other systems. *)
Theorem C9_fallback_facts (h : host) (Hno : h_has_psutil h = false) :
  dict_get (get_cpu_info h) "cores" = Ret (int_or_none (h_os_cpu_count h)) /\
  get_disk_info h =
    (if String.eqb (h_system h) "Windows"
     then match disk_query_cwd h with Ret d => [d] | Raise _ => [] end
     else []) /\
  (forall total used free, h_disk_usage h (h_cwd h) = Ret (total, used, free) ->
     total <> 0%Z -> String.eqb (h_system h) "Windows" = true ->
     exists d, get_disk_info h = [d] /\
       dict_get d "mountpoint" = Ret (VStr (h_cwd h)) /\
       dict_get d "used" = Ret (VStr (format_bytes (inject_Z used))) /\
       dict_get d "free" = Ret (VStr (format_bytes (inject_Z free)))).
Proof.
  assert (Ed : get_disk_info h =
    (if String.eqb (h_system h) "Windows"
     then match disk_query_cwd h with Ret d => [d] | Raise _ => [] end
     else [])) by (unfold get_disk_info; rewrite Hno; reflexivity).
  split; [unfold get_cpu_info; rewrite Hno; reflexivity |].
  split; [exact Ed |].
  intros total used free Hu Ht Hw. rewrite Ed, Hw.
  unfold disk_query_cwd. rewrite Hu. simpl.
  destruct (Z.eqb_spec total 0); [contradiction |].
  eexists. split; [reflexivity |]. repeat split; reflexivity.
Qed.

Lemma C9_witness :
  dict_get (get_cpu_info (no_psutil_host "Windows")) "cores" = Ret (VInt 8) /\
  List.length (get_disk_info (no_psutil_host "Windows")) = 1%nat.
Proof.
  destruct (C9_fallback_facts (no_psutil_host "Windows") eq_refl) as [Hc [Hd _]].
  split; [exact Hc |]. rewrite Hd. vm_compute. reflexivity.
Defined.

(** C9 counterexample: on Linux without psutil the current directory's
    volume answers its query, yet the disk list is empty. *)
Lemma C9_no_cwd_volume_off_windows :
  get_disk_info (no_psutil_host "Linux") = [] /\
  exists d, disk_query_cwd (no_psutil_host "Linux") = Ret d.
Proof. split; [reflexivity | eexists; reflexivity]. Qed.

(** ** Byte formatter *)

(** C4 (corrected).  On every integer byte count [0 <= n < 2^53] (below
    8 PiB), [format_bytes] with Python's double arithmetic returns the
    reference formatter's string (divide by 1024 through B, KB, MB, GB, TB,
    PB, stop below 1024 or at PB, one decimal place), and
    format(0) = "0.0 B", format(1536) = "1.5 KB", format(1073741824) = "1.0 GB". *)
Theorem C4_format_bytes_reference :
  (forall n : Z, (0 <= n < 2 ^ 53)%Z -> format_bytes_py n = Ret (spec_format_bytes n)) /\
  format_bytes_py 0 = Ret "0.0 B" /\
  format_bytes_py 1536 = Ret "1.5 KB" /\
  format_bytes_py 1073741824 = Ret "1.0 GB".
Proof.
  split.
  - intros n Hn. rewrite format_bytes_py_exact by lia.
    rewrite format_bytes_matches_spec by lia. reflexivity.
  - split; [| split]; vm_compute; reflexivity.
Qed.

Lemma C4_witness :
  (0 <= 2 ^ 53 - 1 < 2 ^ 53)%Z /\
  format_bytes_py (2 ^ 53 - 1) = Ret (spec_format_bytes (2 ^ 53 - 1)).
Proof.
  split; [lia |]. apply (proj1 C4_format_bytes_reference). lia.
Defined.

(** C4 counterexample: from 2^53 on, int division by 1024 rounds to a
    double.  9288674231451649 bytes (8.25 PiB plus one byte) becomes exactly
    8.25 and prints "8.2 PB", where exact division prints "8.3 PB"; and
    10**400 bytes raise OverflowError instead of being rendered. *)
Lemma C4_float_division_rounds :
  format_bytes_py 9288674231451649 = Ret "8.2 PB" /\
  spec_format_bytes 9288674231451649 = "8.3 PB" /\
  format_bytes_py (10 ^ 400) = Raise OverflowError.
Proof. vm_compute. split; [reflexivity | split; reflexivity]. Qed.

(** C5.  The unit [format_bytes] picks is monotone in its input: a larger
    value never gets an earlier unit of B, KB, MB, GB, TB, PB. *)
Theorem C5_format_unit_monotone (a b : Q) (Hab : (a <= b)%Q) :
  (unit_rank (format_unit a) <= unit_rank (format_unit b))%nat.
Proof.
  rewrite !unit_rank_format_unit. apply scan_count_mono. exact Hab.
Qed.

Lemma C5_witness :
  (inject_Z 1000 <= inject_Z 2048)%Q /\
  (unit_rank (format_unit (inject_Z 1000)) <= unit_rank (format_unit (inject_Z 2048)))%nat.
Proof.
  split; [vm_compute; discriminate |].
  apply C5_format_unit_monotone. vm_compute. discriminate.
Defined.

(** * Further properties of the monitor *)

(** ** Strings *)

Lemma string_length_append (a b : string) :
  String.length (a ++ b) = (String.length a + String.length b)%nat.
Proof. induction a as [| c a IH]; simpl; [reflexivity | rewrite IH; reflexivity]. Qed.

(** ** Sorting an already sorted list *)

Lemma insert_desc_last (p : ProcessInfo) (l : list ProcessInfo) :
  Forall (fun y => cpu_desc y p) l -> insert_desc p l = (l ++ [p])%list.
Proof.
  induction l as [| y l IH]; intros Hall; simpl; [reflexivity |].
  inversion Hall as [| ? ? Hy Hl]; subst.
  destruct (Qltb (pi_cpu_percent y) (pi_cpu_percent p)) eqn:E.
  - apply Qltb_iff in E. exfalso. apply (Qlt_not_le _ _ E). exact Hy.
  - rewrite IH by exact Hl. reflexivity.
Qed.

Lemma strongly_sorted_app_mid {A} (R : A -> A -> Prop) (acc l : list A) (x : A) :
  StronglySorted R (acc ++ x :: l) -> Forall (fun y => R y x) acc.
Proof.
  induction acc as [| a acc IH]; intros Hs; simpl in *; [constructor |].
  apply StronglySorted_inv in Hs as [Hs Hall]. constructor.
  - rewrite Forall_forall in Hall. apply Hall. apply in_or_app. right. left. reflexivity.
  - apply IH, Hs.
Qed.

Lemma sort_fold_sorted_id (l acc : list ProcessInfo) :
  StronglySorted cpu_desc (acc ++ l) ->
  fold_left (fun acc p => insert_desc p acc) l acc = (acc ++ l)%list.
Proof.
  revert acc. induction l as [| x l IH]; intros acc Hs; simpl.
  - rewrite app_nil_r. reflexivity.
  - rewrite insert_desc_last by (eapply strongly_sorted_app_mid; exact Hs).
    rewrite IH; rewrite <- app_assoc; [reflexivity | exact Hs].
Qed.

(** Sorting a list that is already sorted leaves it as it is. *)
Lemma sort_sorted_id (l : list ProcessInfo) :
  Sorted cpu_desc l -> sort_by_cpu_desc l = l.
Proof.
  intros Hs. apply Sorted_StronglySorted in Hs; [| exact cpu_desc_trans].
  unfold sort_by_cpu_desc. apply (sort_fold_sorted_id l []). exact Hs.
Qed.

(** ** Extra properties *)

(** X1.  [display_processes] prints "No active processes found!" exactly
    for an empty list; otherwise at most ten rows, the first ten of the list
    sorted by CPU, and totals summed over the whole list it was given. *)
Theorem X1_display_processes_shape (l : list ProcessInfo) :
  match display_processes l with
  | NoActiveProcesses => l = []
  | ProcessTable rows c m =>
      rows = firstn 10 (sort_by_cpu_desc l) /\ rows <> [] /\
      (List.length rows <= 10)%nat /\ c = sum_cpu l /\ m = sum_mem l
  end.
Proof.
  unfold display_processes. pose proof (sort_perm l) as Hp.
  destruct (sort_by_cpu_desc l) as [| y ys] eqn:Es.
  - apply Permutation_nil. symmetry. exact Hp.
  - change (firstn 10 (y :: ys)) with (y :: firstn 9 ys). cbn iota.
    rewrite (sum_cpu_perm _ _ Hp), (sum_mem_perm _ _ Hp).
    repeat split; try discriminate.
    change (S (List.length (firstn 9 ys)) <= 10)%nat.
    rewrite length_firstn. lia.
Qed.

(** X2.  The list [get_top_processes] returns is already in display order:
    [display_processes] re-sorts it without reordering, so its rows are the
    first ten entries of that list as returned. *)
Theorem X2_display_keeps_ranked_order (env : proc_env) (limit : Z) (out : list ProcessInfo)
  (H : get_top_processes env limit = Ret out) :
  display_processes out =
    match out with
    | [] => NoActiveProcesses
    | _ => ProcessTable (firstn 10 out) (sum_cpu out) (sum_mem out)
    end.
Proof.
  assert (Hs : Sorted cpu_desc out).
  { destruct (get_top_processes_cases env limit) as [E | (coll & _ & _ & _ & E)];
      rewrite E in H; inversion H; subst out; [constructor |].
    destruct (py_slice_firstn (sort_by_cpu_desc coll) limit) as [n ->].
    apply sorted_firstn, sort_sorted. }
  unfold display_processes. rewrite (sort_sorted_id out Hs).
  destruct out as [| x xs]; reflexivity.
Qed.

Lemma X2_witness :
  exists out, get_top_processes ranked_env 10 = Ret out /\ List.map pi_pid out = [3; 2; 1]%Z /\
  display_processes out =
    match out with
    | [] => NoActiveProcesses
    | _ => ProcessTable (firstn 10 out) (sum_cpu out) (sum_mem out)
    end.
Proof.
  eexists. split; [reflexivity |]. split; [reflexivity |].
  apply (X2_display_keeps_ranked_order ranked_env 10). reflexivity.
Defined.

Lemma py_len_app (a b : string) : py_len (a ++ b) = (py_len a + py_len b)%nat.
Proof.
  induction a as [| c a IH]; simpl; [reflexivity |].
  destruct (utf8_cont c); rewrite IH; reflexivity.
Qed.

Lemma py_len_take (k : nat) (s : string) : py_len (py_take k s) = Nat.min k (py_len s).
Proof.
  revert k. induction s as [| c s IH]; intros k; simpl; [destruct k; reflexivity |].
  destruct (utf8_cont c) eqn:Ec; simpl.
  - rewrite Ec. apply IH.
  - destruct k as [| k]; simpl; [reflexivity |].
    rewrite Ec. simpl. rewrite IH. reflexivity.
Qed.

Lemma py_take_split (k : nat) (s : string) :
  exists rest, s = (py_take k s ++ rest)%string /\
    (rest = EmptyString \/ exists c r, rest = String c r /\ utf8_cont c = false).
Proof.
  revert k. induction s as [| c s IH]; intros k; simpl.
  - exists EmptyString. split; [reflexivity | left; reflexivity].
  - destruct (utf8_cont c) eqn:Ec.
    + destruct (IH k) as (rest & Hs & Hr). exists rest. simpl. rewrite <- Hs. auto.
    + destruct k as [| k].
      * exists (String c s). split; [reflexivity |]. right. exists c, s. auto.
      * destruct (IH k) as (rest & Hs & Hr). exists rest. simpl. rewrite <- Hs. auto.
Qed.

(** X3.  A process name in the table has at most 22 characters, counted
    as Python's [len] counts them (code points).  A name of up to 22
    characters is shown as it is.  A longer one is shown as its first 19
    characters followed by "...", cut at a character boundary, never inside
    a multi-byte character.  Twelve accented letters (24 bytes) are shown
    unchanged. *)
Theorem X3_display_name_bounded (name : string) :
  (py_len (display_name name) <= 22)%nat /\
  ((py_len name <= 22)%nat -> display_name name = name) /\
  ((22 < py_len name)%nat ->
     exists head rest, py_len head = 19%nat /\ name = (head ++ rest)%string /\
       (exists c r, rest = String c r /\ utf8_cont c = false) /\
       display_name name = (head ++ "...")%string) /\
  display_name (e_acute_name 12) = e_acute_name 12.
Proof.
  assert (Hex : display_name (e_acute_name 12) = e_acute_name 12) by (vm_compute; reflexivity).
  unfold display_name at 1 2 3.
  destruct (Nat.leb_spec (py_len name) 22) as [Hle | Hgt].
  - split; [exact Hle |]. split; [reflexivity |]. split; [intros; lia | exact Hex].
  - split.
    { rewrite py_len_app, py_len_take. change (py_len "...") with 3%nat. lia. }
    split; [intros; lia |]. split; [| exact Hex].
    intros _. destruct (py_take_split 19 name) as (rest & Hs & Hr).
    exists (py_take 19 name), rest.
    split; [rewrite py_len_take; lia |]. split; [exact Hs |]. split; [| reflexivity].
    destruct Hr as [-> | Hr]; [| exact Hr].
    exfalso. rewrite Hs, py_len_app, py_len_take in Hgt.
    change (py_len "") with 0%nat in Hgt. lia.
Qed.

(** ** Shape of [format_bytes] *)

Lemma string_app_assoc (a b c : string) : ((a ++ b) ++ c)%string = (a ++ (b ++ c))%string.
Proof. induction a as [| x a IH]; simpl; [reflexivity | rewrite IH; reflexivity]. Qed.

Lemma all_digits_app (a b : string) :
  all_digits (a ++ b) = all_digits a && all_digits b.
Proof. induction a as [| x a IH]; simpl; [reflexivity | rewrite IH, andb_assoc; reflexivity]. Qed.

Lemma digit_char (n : Z) : is_digit (ascii_of_nat (48 + Z.to_nat (n mod 10)%Z)) = true.
Proof.
  pose proof (Z.mod_pos_bound n 10 ltac:(lia)) as Hb.
  unfold is_digit. rewrite Ascii.nat_ascii_embedding by lia.
  apply andb_true_intro; split; apply Nat.leb_le; lia.
Qed.

Lemma dec_aux_digits (fuel : nat) (n : Z) (acc : string) :
  exists D, dec_aux fuel n acc = (D ++ acc)%string /\ all_digits D = true /\
    (fuel <> 0%nat -> D <> EmptyString).
Proof.
  revert n acc. induction fuel as [| f IH]; intros n acc; cbn [dec_aux].
  - exists EmptyString. repeat split; auto.
  - destruct (Z.eqb (n / 10) 0).
    + exists (String (ascii_of_nat (48 + Z.to_nat (n mod 10)%Z)) EmptyString).
      cbn [all_digits append]. rewrite digit_char. repeat split; discriminate.
    + destruct (IH (n / 10)%Z (String (ascii_of_nat (48 + Z.to_nat (n mod 10)%Z)) acc))
        as (D & HD & Hdig & _).
      exists (D ++ String (ascii_of_nat (48 + Z.to_nat (n mod 10)%Z)) EmptyString)%string.
      rewrite HD, string_app_assoc. split; [reflexivity |].
      rewrite all_digits_app, Hdig. cbn [all_digits]. rewrite digit_char.
      split; [reflexivity |]. intros _. destruct D; discriminate.
Qed.

Lemma dec_of_nonneg_digits (n : Z) :
  exists D, dec_of_nonneg n = D /\ all_digits D = true /\ D <> EmptyString.
Proof.
  unfold dec_of_nonneg. destruct (dec_aux_digits (S (Z.to_nat (Z.log2 n))) n "")
    as (D & HD & Hdig & Hne).
  rewrite HD. exists (D ++ "")%string. split; [reflexivity |].
  rewrite all_digits_app, Hdig. split; [reflexivity |].
  intros H. apply (Hne ltac:(discriminate)). destruct D; [reflexivity | discriminate].
Qed.

Lemma dec_of_nonneg_one_digit (n : Z) :
  exists d, dec_of_nonneg (n mod 10)%Z = String d EmptyString /\ is_digit d = true.
Proof.
  pose proof (Z.mod_pos_bound n 10 ltac:(lia)) as Hb.
  unfold dec_of_nonneg. cbn [dec_aux].
  rewrite Z.div_small by lia. rewrite Z.eqb_refl.
  eexists. split; [reflexivity |]. rewrite Zmod_small by lia. apply digit_char.
Qed.

Lemma format_scan_unit_in (units : list string) (v : Q) :
  In (snd (format_scan units v)) (units ++ ["PB"]).
Proof.
  revert v. induction units as [| u us IH]; intros v; simpl; [left; reflexivity |].
  destruct (Qltb v 1024); simpl; [left; reflexivity | right; apply IH].
Qed.

Lemma fmt1_nonneg_shape (q : Q) :
  exists D d, fmt1_nonneg q = (D ++ String "." (String d EmptyString))%string /\
    all_digits D = true /\ D <> EmptyString /\ is_digit d = true.
Proof.
  unfold fmt1_nonneg.
  destruct (dec_of_nonneg_digits (round_half_even (q * 10) / 10)%Z) as (D & -> & HD & Hne).
  destruct (dec_of_nonneg_one_digit (round_half_even (q * 10))) as (d & -> & Hd).
  exists D, d. repeat split; assumption.
Qed.

Lemma format_bytes_shape (v : Q) :
  exists sign D d u,
    format_bytes v = (sign ++ D ++ String "." (String d (String " " u)))%string /\
    (sign = EmptyString \/ sign = "-") /\ all_digits D = true /\ D <> EmptyString /\
    is_digit d = true /\ In u (byte_units ++ ["PB"]).
Proof.
  unfold format_bytes. pose proof (format_scan_unit_in byte_units v) as Hu.
  destruct (format_scan byte_units v) as [x u]. simpl in Hu.
  unfold fmt1. destruct (Z.ltb (Qnum x) 0).
  - destruct (fmt1_nonneg_shape (- x)) as (D & d & -> & HD & Hne & Hd).
    exists "-", D, d, u. split; [| repeat split; auto].
    cbn [append]. rewrite !string_app_assoc. reflexivity.
  - destruct (fmt1_nonneg_shape x) as (D & d & -> & HD & Hne & Hd).
    exists EmptyString, D, d, u. split; [| repeat split; auto].
    cbn [append]. rewrite !string_app_assoc. reflexivity.
Qed.

Lemma format_bytes_ne_0B (v : Q) : format_bytes v <> "0 B".
Proof.
  destruct (format_bytes_shape v) as (sign & D & d & u & -> & Hs & HD & Hne & _ & _).
  intros H. destruct Hs as [-> | ->]; cbn [append] in H.
  - destruct D as [| c D]; [contradiction |]. cbn [append] in H.
    inversion H as [[Hc Hrest]]. subst c.
    destruct D as [| c' D]; cbn [append] in Hrest; inversion Hrest; subst.
    cbn [all_digits] in HD. discriminate HD.
  - inversion H.
Qed.

Lemma match_0B_default {A} (s : string) (a b : A) :
  s <> "0 B" -> match s with "0 B" => a | _ => b end = b.
Proof.
  intros Hs.
  repeat match goal with
         | |- context [match ?x with EmptyString => _ | String _ _ => _ end] =>
             is_var x; destruct x
         | |- context [match ?c with Ascii _ _ _ _ _ _ _ _ => _ end] =>
             is_var c; destruct c
         | |- context [if ?b then _ else _] => is_var b; destruct b
         end; try reflexivity; contradiction.
Qed.

(** ** Memory, disks and [monitor_once] *)

Lemma memory_display_ok (h : host) :
  exists out, display_memory_info (get_memory_info h) = Ret out /\ List.length out = 7%nat.
Proof.
  unfold get_memory_info. destruct (h_has_psutil h).
  2:{ eexists. split; reflexivity. }
  destruct (h_virtual_memory h) as [[[[total available] used] percent] |];
    [| eexists; split; reflexivity].
  destruct (h_swap_memory h) as [[[stotal sused] spercent] |];
    [| eexists; split; reflexivity].
  pose proof (format_bytes_ne_0B (inject_Z stotal)) as Hne.
  generalize dependent (format_bytes (inject_Z stotal)). intros st Hne.
  unfold display_memory_info. cbn [dict_get String.eqb pybind Ascii.eqb Bool.eqb].
  rewrite match_0B_default by exact Hne.
  eexists. split; reflexivity.
Qed.

Lemma disk_entry_keys (dev mp : string) (usage : Z * Z * Z) (d : dict) :
  disk_entry dev mp usage = Ret d ->
  exists a b c e f, dict_get d "device" = Ret a /\ dict_get d "mountpoint" = Ret b /\
    dict_get d "used" = Ret c /\ dict_get d "total" = Ret e /\ dict_get d "percent" = Ret f.
Proof.
  destruct usage as [[t u] fr]. unfold disk_entry.
  destruct (Z.eqb t 0); intros H; inversion H; subst.
  do 5 eexists. repeat split; reflexivity.
Qed.

Lemma get_disk_info_entries (h : host) (d : dict) :
  In d (get_disk_info h) -> exists dev mp usage, disk_entry dev mp usage = Ret d.
Proof.
  assert (Hq : forall p, disk_query h p = Ret d ->
                 exists dev mp usage, disk_entry dev mp usage = Ret d).
  { intros p. unfold disk_query. destruct (h_disk_usage h (part_mountpoint p)) as [u |];
      simpl; [| discriminate]. intros H. eauto. }
  assert (Hc : disk_query_cwd h = Ret d ->
                 exists dev mp usage, disk_entry dev mp usage = Ret d).
  { unfold disk_query_cwd. destruct (h_disk_usage h (h_cwd h)) as [u |];
      simpl; [| discriminate]. intros H. eauto. }
  assert (Hl : forall parts, In d (disk_loop h parts) ->
                 exists dev mp usage, disk_entry dev mp usage = Ret d).
  { induction parts as [| p ps IH]; simpl; [intros [] |].
    destruct (disk_query h p) eqn:E; [| exact IH].
    intros [<- | Hin]; [apply (Hq p E) | apply IH, Hin]. }
  unfold get_disk_info. intros Hin.
  assert (Hfb : In d (if String.eqb (h_system h) "Windows"
                      then match disk_query_cwd h with Ret d => [d] | Raise _ => [] end
                      else []) -> exists dev mp usage, disk_entry dev mp usage = Ret d).
  { destruct (String.eqb (h_system h) "Windows"); [| intros []].
    destruct (disk_query_cwd h) eqn:E; [| intros []].
    intros [<- | []]. apply Hc. reflexivity. }
  destruct (h_has_psutil h); [| apply Hfb, Hin].
  destruct (h_disk_partitions h) as [parts |]; [| apply Hfb, Hin].
  destruct (disk_loop h parts) eqn:E; [apply Hfb, Hin |].
  apply (Hl parts). rewrite E. exact Hin.
Qed.

Lemma display_disk_info_ok (l : list dict) :
  (forall d, In d l -> exists dev mp usage, disk_entry dev mp usage = Ret d) ->
  exists out, display_disk_info l = Ret out /\ List.length out = (5 * List.length l)%nat.
Proof.
  induction l as [| d ds IH]; intros Hall; simpl; [eexists; split; reflexivity |].
  destruct (Hall d (or_introl eq_refl)) as (dev & mp & usage & Hd).
  destruct (disk_entry_keys _ _ _ _ Hd) as (a & b & c & e & f & Ha & Hb & Hc & He & Hf).
  rewrite Ha, Hb, Hc, He, Hf. simpl.
  destruct IH as (out & Ho & Hlen); [intros; apply Hall; right; assumption |].
  rewrite Ho. simpl. eexists. split; [reflexivity |]. simpl. rewrite Hlen. lia.
Qed.

Lemma get_top_processes_ret (env : proc_env) (limit : Z) :
  exists l, get_top_processes env limit = Ret l.
Proof.
  destruct (get_top_processes_cases env limit) as [E | (coll & _ & _ & _ & E)];
    rewrite E; eexists; reflexivity.
Qed.

Lemma cpu_display_ok (h : host) (q : Q) :
  h_has_psutil h = true -> h_cpu_percent h = Ret q ->
  exists out, display_cpu_info (get_cpu_info h) = Ret out.
Proof.
  intros Hps Hq. unfold get_cpu_info. rewrite Hps, Hq.
  destruct (String.eqb (h_system h) "Windows"); [destruct (h_temperature h) |];
    eexists; reflexivity.
Qed.

Lemma cpu_display_fallback (h : host) :
  (h_has_psutil h = false \/ exists e, h_cpu_percent h = Raise e) ->
  display_cpu_info (get_cpu_info h) = Raise (KeyError "physical_cores").
Proof.
  intros Hf. assert (E : get_cpu_info h = cpu_fallback h).
  { unfold get_cpu_info. destruct Hf as [-> | [e He]]; [reflexivity |].
    rewrite He. destruct (h_has_psutil h); reflexivity. }
  rewrite E. reflexivity.
Qed.

(** X4.  [display_memory_info] never raises on what [get_memory_info]
    returns, and always prints the swap line: [format_bytes] never yields
    "0 B", so the [swap_total != "0 B"] guard never hides it. *)
Theorem X4_memory_display_always_with_swap (h : host) :
  exists out, display_memory_info (get_memory_info h) = Ret out /\ List.length out = 7%nat.
Proof. apply memory_display_ok. Qed.

Lemma render_shape (x : Q) (u : string) :
  exists sign D d,
    (fmt1 x ++ " " ++ u)%string = (sign ++ D ++ String "." (String d (String " " u)))%string /\
    (sign = EmptyString \/ sign = "-") /\ all_digits D = true /\ D <> EmptyString /\
    is_digit d = true.
Proof.
  unfold fmt1. destruct (Z.ltb (Qnum x) 0).
  - destruct (fmt1_nonneg_shape (- x)) as (D & d & -> & HD & Hne & Hd).
    exists "-", D, d. split; [| repeat split; auto].
    cbn [append]. rewrite !string_app_assoc. reflexivity.
  - destruct (fmt1_nonneg_shape x) as (D & d & -> & HD & Hne & Hd).
    exists EmptyString, D, d. split; [| repeat split; auto].
    cbn [append]. rewrite !string_app_assoc. reflexivity.
Qed.

Lemma render_ne_0B (x : Q) (u : string) : (fmt1 x ++ " " ++ u)%string <> "0 B".
Proof.
  destruct (render_shape x u) as (sign & D & d & -> & Hs & HD & Hne & _).
  intros H. destruct Hs as [-> | ->]; cbn [append] in H.
  - destruct D as [| c D]; [contradiction |]. cbn [append] in H.
    inversion H as [[Hc Hrest]]. subst c.
    destruct D as [| c' D]; cbn [append] in Hrest; inversion Hrest; subst.
    cbn [all_digits] in HD. discriminate HD.
  - inversion H.
Qed.

Lemma to_float_cases (q : Q) :
  to_float q = Raise OverflowError \/ exists x, to_float q = Ret x.
Proof. unfold to_float. destruct (Qltb _ _); [right; eexists; reflexivity | left; reflexivity]. Qed.

Lemma py_fmt1_cases (v : pynum) :
  py_fmt1 v = Raise OverflowError \/ exists x, py_fmt1 v = Ret (fmt1 x).
Proof.
  destruct v as [n | x]; cbn [py_fmt1]; [| right; exists x; reflexivity].
  destruct (to_float_cases (inject_Z n)) as [-> | [x ->]]; [left | right; exists x]; reflexivity.
Qed.

Lemma py_div_1024_cases (v : pynum) :
  py_div_1024 v = Raise OverflowError \/ exists v', py_div_1024 v = Ret v'.
Proof.
  destruct v as [n | x]; cbn [py_div_1024]; [| right; eexists; reflexivity].
  destruct (to_float_cases (inject_Z n / 1024)) as [-> | [x ->]];
    [left | right; eexists]; reflexivity.
Qed.

(** The loop either raises OverflowError or renders a number and a unit. *)
Lemma scan_py_result (us : list string) (v : pynum) :
  format_scan_py us v = Raise OverflowError \/
  exists x u, In u (us ++ ["PB"]) /\ format_scan_py us v = Ret (fmt1 x ++ " " ++ u)%string.
Proof.
  revert v. induction us as [| u us IH]; intros v.
  - cbn [format_scan_py]. destruct (py_fmt1_cases v) as [-> | [x ->]]; [left; reflexivity |].
    right. exists x, "PB". split; [left; reflexivity | reflexivity].
  - rewrite format_scan_py_cons. destruct (Qltb (pynum_value v) 1024).
    + destruct (py_fmt1_cases v) as [-> | [x ->]]; [left; reflexivity |].
      right. exists x, u. split; [left; reflexivity | reflexivity].
    + destruct (py_div_1024_cases v) as [-> | [v' ->]]; [left; reflexivity |].
      cbn [pybind]. destruct (IH v') as [H | (x & u' & Hin & H)]; [left; exact H |].
      right. exists x, u'. split; [right; exact Hin | exact H].
Qed.

(** X5.  [format_bytes] either raises OverflowError or returns a string
    [<digits>.<digit> <unit>], with an optional leading "-" and the unit
    among B .. PB; in particular it never returns "0 B".  Below 2^53 it
    never raises. *)
Theorem X5_format_bytes_shape (n : Z) :
  (format_bytes_py n = Raise OverflowError \/
   exists s, format_bytes_py n = Ret s /\
     (exists sign D d u, s = (sign ++ D ++ String "." (String d (String " " u)))%string /\
        (sign = EmptyString \/ sign = "-") /\ all_digits D = true /\ D <> EmptyString /\
        is_digit d = true /\ In u (byte_units ++ ["PB"])) /\
     s <> "0 B") /\
  ((Z.abs n < 2 ^ 53)%Z -> exists s, format_bytes_py n = Ret s).
Proof.
  split.
  - unfold format_bytes_py.
    destruct (scan_py_result byte_units (PyInt n)) as [H | (x & u & Hin & H)]; [left; exact H |].
    right. rewrite H. eexists. split; [reflexivity |]. split; [| apply render_ne_0B].
    destruct (render_shape x u) as (sign & D & d & Hs & Hsign & HD & Hne & Hd).
    exists sign, D, d, u. repeat split; assumption.
  - intros Hn. eexists. apply format_bytes_py_exact. exact Hn.
Qed.

(** X6.  [display_disk_info] never raises on what [get_disk_info] returns:
    every entry has the five fields it prints. *)
Theorem X6_disk_display_total (h : host) :
  exists out, display_disk_info (get_disk_info h) = Ret out /\
    List.length out = (5 * List.length (get_disk_info h))%nat.
Proof. apply display_disk_info_ok. intros d Hd. exact (get_disk_info_entries h d Hd). Qed.

(** X7.  [monitor_once] raises exactly when [get_cpu_info] takes its
    fallback (psutil missing, or [psutil.cpu_percent] raising); memory, disk
    and process display never make it raise. *)
Theorem X7_monitor_once_fails_only_on_cpu_fallback (h : host) :
  (exists e, monitor_once h = Raise e) <->
  (h_has_psutil h = false \/ exists e, h_cpu_percent h = Raise e).
Proof.
  split.
  - intros [e He].
    destruct (h_has_psutil h) eqn:Hps; [right | left; reflexivity].
    destruct (h_cpu_percent h) as [q | e'] eqn:Hq; [| eexists; reflexivity].
    exfalso. unfold monitor_once in He.
    destruct (cpu_display_ok h q Hps Hq) as [c Hc]. rewrite Hc in He. simpl in He.
    destruct (memory_display_ok h) as (m & Hm & _). rewrite Hm in He. simpl in He.
    destruct (display_disk_info_ok (get_disk_info h)) as (d & Hd & _);
      [intros x Hx; exact (get_disk_info_entries h x Hx) |].
    rewrite Hd in He. simpl in He.
    destruct (get_top_processes_ret (proc_env_of h) 10) as [l Hl].
    rewrite Hl in He. discriminate.
  - intros Hf. exists (KeyError "physical_cores").
    unfold monitor_once. rewrite (cpu_display_fallback h Hf). reflexivity.
Qed.

(** X8.  Temperature is reported only on Windows with psutil, and only
    when the sensor gave a reading. *)
Theorem X8_temperature_only_on_windows (h : host)
  (H : dict_mem (get_cpu_info h) "temperature" = true) :
  h_has_psutil h = true /\ String.eqb (h_system h) "Windows" = true /\
  exists t, h_temperature h = Some t /\ dict_get (get_cpu_info h) "temperature" = Ret (VStr t).
Proof.
  revert H. unfold get_cpu_info.
  destruct (h_has_psutil h); [| intros H; discriminate H].
  destruct (h_cpu_percent h); [| intros H; discriminate H].
  destruct (String.eqb (h_system h) "Windows") eqn:Ew; [| intros H; discriminate H].
  destruct (h_temperature h) as [t |]; intros H; [| discriminate H].
  split; [reflexivity |]. split; [reflexivity |]. exists t. split; reflexivity.
Qed.

Lemma X8_witness :
  dict_mem (get_cpu_info windows_host) "temperature" = true /\
  h_has_psutil windows_host = true /\ String.eqb (h_system windows_host) "Windows" = true /\
  exists t, h_temperature windows_host = Some t /\
    dict_get (get_cpu_info windows_host) "temperature" = Ret (VStr t).
Proof.
  split; [reflexivity |]. apply X8_temperature_only_on_windows. reflexivity.
Defined.

(** ** Slicing and skipped processes *)

Lemma substring_app_left (s t : string) :
  substring 0 (String.length s) (s ++ t) = s.
Proof. induction s as [| c s IH]; simpl; [destruct t; reflexivity | rewrite IH; reflexivity]. Qed.

Lemma substring_app_right (s t : string) (m : nat) :
  substring (String.length s) m (s ++ t) = substring 0 m t.
Proof. induction s as [| c s IH]; simpl; [reflexivity | exact IH]. Qed.

(** ** Disk entries and their queries *)

Lemma get_disk_info_queries (h : host) (d : dict) :
  In d (get_disk_info h) ->
  exists dev path usage, h_disk_usage h path = Ret usage /\ disk_entry dev path usage = Ret d.
Proof.
  assert (Hq : forall p, disk_query h p = Ret d -> exists dev path usage,
                 h_disk_usage h path = Ret usage /\ disk_entry dev path usage = Ret d).
  { intros p. unfold disk_query. destruct (h_disk_usage h (part_mountpoint p)) as [u |] eqn:E;
      simpl; [| discriminate]. intros H. eauto. }
  assert (Hc : disk_query_cwd h = Ret d -> exists dev path usage,
                 h_disk_usage h path = Ret usage /\ disk_entry dev path usage = Ret d).
  { unfold disk_query_cwd. destruct (h_disk_usage h (h_cwd h)) as [u |] eqn:E;
      simpl; [| discriminate]. intros H. eauto. }
  assert (Hl : forall parts, In d (disk_loop h parts) -> exists dev path usage,
                 h_disk_usage h path = Ret usage /\ disk_entry dev path usage = Ret d).
  { induction parts as [| p ps IH]; simpl; [intros [] |].
    destruct (disk_query h p) eqn:E; [| exact IH].
    intros [<- | Hin]; [apply (Hq p E) | apply IH, Hin]. }
  unfold get_disk_info. intros Hin.
  assert (Hfb : In d (if String.eqb (h_system h) "Windows"
                      then match disk_query_cwd h with Ret d => [d] | Raise _ => [] end
                      else []) -> exists dev path usage,
                 h_disk_usage h path = Ret usage /\ disk_entry dev path usage = Ret d).
  { destruct (String.eqb (h_system h) "Windows"); [| intros []].
    destruct (disk_query_cwd h) eqn:E; [| intros []].
    intros [<- | []]. apply Hc. reflexivity. }
  destruct (h_has_psutil h); [| apply Hfb, Hin].
  destruct (h_disk_partitions h) as [parts |]; [| apply Hfb, Hin].
  destruct (disk_loop h parts) eqn:E; [apply Hfb, Hin |].
  apply (Hl parts). rewrite E. exact Hin.
Qed.

Lemma disk_entry_percent (dev mp : string) (t u f : Z) (d : dict) :
  disk_entry dev mp (t, u, f) = Ret d -> (0 <= u <= t)%Z ->
  exists p, dict_get d "percent" = Ret (VNum p) /\ (0 <= p <= 100)%Q.
Proof.
  unfold disk_entry. destruct (Z.eqb_spec t 0) as [| Ht]; intros H; inversion H; subst.
  intros [Hu Hut]. eexists. split; [reflexivity |].
  assert (Htq : (0 < inject_Z t)%Q) by (unfold Qlt; simpl; lia).
  split.
  - apply Qmult_le_0_compat; [| discriminate].
    apply Qle_shift_div_l; [exact Htq |]. rewrite Qmult_0_l.
    unfold Qle; simpl; lia.
  - setoid_replace 100%Q with (1 * 100)%Q at 2 by reflexivity.
    apply Qmult_le_compat_r; [| discriminate].
    apply Qle_shift_div_r; [exact Htq |]. rewrite Qmult_1_l.
    unfold Qle; simpl; lia.
Qed.

(** X9.  Below 2^53 bytes (8 PiB) every division [format_bytes] performs
    in double precision is exact: for every integer [n] with [|n| < 2^53]
    it returns the string exact division gives, [format_bytes] of the exact
    model. *)
Theorem X9_format_bytes_float_exact (n : Z) (Hn : (Z.abs n < 2 ^ 53)%Z) :
  format_bytes_py n = Ret (format_bytes (inject_Z n)).
Proof. apply format_bytes_py_exact. exact Hn. Qed.

Lemma X9_witness :
  (Z.abs (- (2 ^ 53 - 1)) < 2 ^ 53)%Z /\
  format_bytes_py (- (2 ^ 53 - 1)) = Ret (format_bytes (inject_Z (- (2 ^ 53 - 1)))).
Proof. split; [lia |]. apply X9_format_bytes_float_exact. lia. Defined.

(** X10.  A process that raises NoSuchProcess, AccessDenied or
    ZombieProcess during the second pass changes nothing: the result is the
    one of the same pass without it. *)
Theorem X10_skipped_process_no_effect (env : proc_env) (limit : Z)
  (l1 l2 : list (iter_item raw_proc)) (e : exn)
  (He : psutil_skipped e = true) (Hs : second_pass env = (l1 ++ ItemRaises e :: l2)%list) :
  get_top_processes env limit = get_top_processes (set_second_pass env (l1 ++ l2)) limit.
Proof.
  unfold get_top_processes. cbn [set_second_pass has_psutil first_pass second_pass cpu_count].
  rewrite Hs, collect_skip by exact He. reflexivity.
Qed.

Lemma X10_witness :
  get_top_processes exiting_env 10 =
  get_top_processes (set_second_pass exiting_env ([Item (mk_raw 5 "a" 0 0)] ++ [])) 10.
Proof.
  apply (X10_skipped_process_no_effect exiting_env 10 [Item (mk_raw 5 "a" 0 0)] [] NoSuchProcess);
    reflexivity.
Defined.

(** X11.  [get_top_processes] returns min(limit, n) entries of the n
    collected for a non-negative [limit]; a negative [limit] slices Python
    style and drops |limit| entries from the end. *)
Theorem X11_result_length (env : proc_env) (limit : Z) (coll : list ProcessInfo)
  (Hps : has_psutil env = true)
  (H1 : first_pass_loop (first_pass env) = Ret tt)
  (H2 : collect (cpu_count env) (second_pass env) = Ret coll) :
  exists out, get_top_processes env limit = Ret out /\
    ((0 <= limit)%Z -> List.length out = Nat.min (Z.to_nat limit) (List.length coll)) /\
    ((limit < 0)%Z -> List.length out = (List.length coll - Z.to_nat (- limit))%nat).
Proof.
  exists (py_slice_upto (sort_by_cpu_desc coll) limit).
  split; [apply get_top_processes_collected; assumption |].
  pose proof (Permutation_length (sort_perm coll)) as Hl.
  unfold py_slice_upto. split; intros Hlim.
  - destruct (Z.leb_spec 0 limit); [| lia]. rewrite length_firstn, <- Hl. reflexivity.
  - destruct (Z.leb_spec 0 limit); [lia |]. rewrite length_firstn, <- !Hl. lia.
Qed.

Lemma X11_witness :
  exists coll, collect (cpu_count eleven_env) (second_pass eleven_env) = Ret coll /\
  exists out, get_top_processes eleven_env (-3) = Ret out /\
    ((0 <= -3)%Z -> List.length out = Nat.min (Z.to_nat (-3)) (List.length coll)) /\
    ((-3 < 0)%Z -> List.length out = (List.length coll - Z.to_nat (- -3))%nat).
Proof.
  eexists. split; [reflexivity |].
  apply X11_result_length; reflexivity.
Defined.

(** X12.  The ".exe" suffix is stripped exactly once from a process name:
    "NAME.exe" is shown as "NAME". *)
Theorem X12_normalize_name_strips_exe (name : string) :
  normalize_name (name ++ ".exe") = name.
Proof.
  unfold normalize_name, endswith.
  rewrite string_length_append. simpl (String.length ".exe").
  rewrite Nat.add_sub, substring_app_right.
  replace (4 <=? String.length name + 4)%nat with true by (symmetry; apply Nat.leb_le; lia).
  simpl. apply substring_app_left.
Qed.

(** X13.  When every usage query reports used between 0 and total, every
    disk entry's percent lies between 0 and 100. *)
Theorem X13_disk_percent_bounds (h : host) (d : dict)
  (Hu : forall path t u f, h_disk_usage h path = Ret (t, u, f) -> (0 <= u <= t)%Z)
  (Hd : In d (get_disk_info h)) :
  exists p, dict_get d "percent" = Ret (VNum p) /\ (0 <= p <= 100)%Q.
Proof.
  destruct (get_disk_info_queries h d Hd) as (dev & path & [[t u] f] & Hq & He).
  apply (disk_entry_percent dev path t u f d He). apply (Hu path t u f Hq).
Qed.

Lemma X13_witness :
  exists d, In d (get_disk_info three_mount_host) /\
  exists p, dict_get d "percent" = Ret (VNum p) /\ (0 <= p <= 100)%Q.
Proof.
  eexists. split; [simpl; left; reflexivity |].
  apply (X13_disk_percent_bounds three_mount_host).
  - intros path t u f H. simpl in H.
    destruct (String.eqb path "/srv"); inversion H; subst; lia.
  - simpl. left. reflexivity.
Defined.
